(** * anyrouter-proxy: the request transformation pipeline, the credential
      rotator, the configuration reload and the relay of [main.py]

    The development embeds the functions of [src/main.py] as Rocq functions
    and states the properties of the specification over them.

    Modelling conventions.
    - A parsed JSON value (what [json.loads] hands to the program) is a value
      of [json].  JSON numbers are the integers; floating-point literals are
      outside the model.  A Python [dict] is an association list in insertion
      order, a Python [None] is [JNull].
    - A Python [str] is a Rocq [string], one character per code point; code
      points above 255 are outside the model.  [bytes] are Rocq strings too,
      one character per byte.
    - A Python exception is the [Raise] case of [result]; the functions are
      written in the error monad and follow the evaluation order of the
      source.
    - In-place mutation of the message dictionaries is modelled by rebuilding
      the value: a body produced by [json.loads] is a tree, no object is
      reachable twice, so no aliasing is lost. *)

From Stdlib Require Import List String Ascii ZArith NArith Bool Lia DecimalString.
Import ListNotations.

Local Open Scope list_scope.
Local Open Scope string_scope.

(* ================================================================= *)
(** ** Exceptions and the error monad *)

Inductive exn : Type :=
| AttributeError
| KeyError
| IndexError
| TypeError
| StopIteration
| JSONDecodeError
| UnicodeDecodeError
| OSError.

Inductive result (A : Type) : Type :=
| Ok (a : A)
| Raise (e : exn).

Arguments Ok {A} a.
Arguments Raise {A} e.

Definition bind {A B : Type} (m : result A) (k : A -> result B) : result B :=
  match m with
  | Ok a => k a
  | Raise e => Raise e
  end.

Notation "x <- m ;; k" := (bind m (fun x => k))
  (at level 61, m at next level, right associativity).

Definition returns {A : Type} (m : result A) : Prop := exists a, m = Ok a.

(* ================================================================= *)
(** ** JSON values *)

#[warnings="-register-all"]
Inductive json : Type :=
| JNull
| JBool (b : bool)
| JInt (n : Z)
| JStr (s : string)
| JList (l : list json)
| JObj (d : list (string * json)).

Definition dict : Type := list (string * json).

(** Characters that cannot be written inside a string literal. *)
Definition nl : string := String "010"%char EmptyString.
Definition dq : string := String "034"%char EmptyString.
Definition sq : string := String "039"%char EmptyString.
Definition bs : string := String "092"%char EmptyString.

(* ----------------------------------------------------------------- *)
(** *** Dictionaries *)

Fixpoint dict_lookup (k : string) (d : dict) : option json :=
  match d with
  | [] => None
  | (k', v) :: d' => if String.eqb k k' then Some v else dict_lookup k d'
  end.

Definition dict_has (k : string) (d : dict) : bool :=
  match dict_lookup k d with Some _ => true | None => false end.

(** [d[k] = v]: an existing key keeps its place, a new key goes last. *)
Fixpoint dict_store (k : string) (v : json) (d : dict) : dict :=
  match d with
  | [] => [(k, v)]
  | (k', v') :: d' =>
      if String.eqb k k' then (k, v) :: d' else (k', v') :: dict_store k v d'
  end.

(** [d.setdefault(k, v)] *)
Definition dict_setdefault (k : string) (v : json) (d : dict) : dict :=
  if dict_has k d then d else dict_store k v d.

(** [d.get(k, default)] *)
Definition lookup_or (k : string) (default : json) (d : dict) : json :=
  match dict_lookup k d with Some x => x | None => default end.

(* ----------------------------------------------------------------- *)
(** *** The Python operations the program applies to parsed values *)

(** [v.get(k, default)]: only a [dict] has the method. *)
Definition py_get (v : json) (k : string) (default : json) : result json :=
  match v with
  | JObj d => Ok (lookup_or k default d)
  | _ => Raise AttributeError
  end.

(** [v[k]] for a string key [k]. *)
Definition py_getitem (v : json) (k : string) : result json :=
  match v with
  | JObj d => match dict_lookup k d with Some x => Ok x | None => Raise KeyError end
  | _ => Raise TypeError
  end.

(** [v[0]] *)
Definition py_index0 (v : json) : result json :=
  match v with
  | JList (x :: _) => Ok x
  | JList [] => Raise IndexError
  | JStr (String c _) => Ok (JStr (String c EmptyString))
  | JStr EmptyString => Raise IndexError
  | JObj _ => Raise KeyError
  | _ => Raise TypeError
  end.

(** [v[k] = x] for a string key [k]. *)
Definition py_setitem (v : json) (k : string) (x : json) : result json :=
  match v with
  | JObj d => Ok (JObj (dict_store k x d))
  | _ => Raise TypeError
  end.

(** Truth value of [v] in a condition. *)
Definition py_truth (v : json) : bool :=
  match v with
  | JNull => false
  | JBool b => b
  | JInt n => negb (Z.eqb n 0)
  | JStr s => negb (String.eqb s "")
  | JList l => match l with [] => false | _ => true end
  | JObj d => match d with [] => false | _ => true end
  end.

Fixpoint chars (s : string) : list json :=
  match s with
  | EmptyString => []
  | String c s' => JStr (String c EmptyString) :: chars s'
  end.

(** The items a [for] loop (or [itertools.cycle]) draws from [v]. *)
Definition py_iter (v : json) : result (list json) :=
  match v with
  | JList l => Ok l
  | JStr s => Ok (chars s)
  | JObj d => Ok (map (fun kv => JStr (fst kv)) d)
  | _ => Raise TypeError
  end.

(** [len(v)] *)
Definition py_len (v : json) : result Z :=
  match v with
  | JList l => Ok (Z.of_nat (List.length l))
  | JStr s => Ok (Z.of_nat (String.length s))
  | JObj d => Ok (Z.of_nat (List.length d))
  | _ => Raise TypeError
  end.

(** [a == b].  [True == 1] and [False == 0]; dictionaries compare without
    regard to the order of their keys. *)
Fixpoint py_eq (a b : json) : bool :=
  match a, b with
  | JNull, JNull => true
  | JBool x, JBool y => Bool.eqb x y
  | JBool x, JInt n => Z.eqb n (if x then 1 else 0)
  | JInt n, JBool x => Z.eqb n (if x then 1 else 0)
  | JInt n, JInt m => Z.eqb n m
  | JStr s, JStr t => String.eqb s t
  | JList l, JList m =>
      (fix eq_items (l m : list json) : bool :=
         match l, m with
         | [], [] => true
         | x :: l', y :: m' => py_eq x y && eq_items l' m'
         | _, _ => false
         end) l m
  | JObj d, JObj e =>
      Nat.eqb (List.length d) (List.length e) &&
      (fix eq_entries (d : dict) : bool :=
         match d with
         | [] => true
         | (k, v) :: d' =>
             match dict_lookup k e with
             | Some w => py_eq v w
             | None => false
             end && eq_entries d'
         end) d
  | _, _ => false
  end.

(* ================================================================= *)
(** ** Strings: [strip], [str()] and [repr()] *)

Definition code (c : ascii) : N := N_of_ascii c.

(** [str.isspace] on one code point below 256. *)
Definition isspace (c : ascii) : bool :=
  let n := code c in
  ((9 <=? n) && (n <=? 13) || (28 <=? n) && (n <=? 32)
   || (n =? 133) || (n =? 160))%N.

Fixpoint lstrip (s : string) : string :=
  match s with
  | EmptyString => EmptyString
  | String c s' => if isspace c then lstrip s' else s
  end.

Fixpoint rstrip (s : string) : string :=
  match s with
  | EmptyString => EmptyString
  | String c s' =>
      match rstrip s' with
      | EmptyString => if isspace c then EmptyString else String c EmptyString
      | r => String c r
      end
  end.

(** [s.strip()] *)
Definition strip (s : string) : string := rstrip (lstrip s).

(** [s.rstrip(ch)] for a one-character argument. *)
Fixpoint rstrip_char (ch : ascii) (s : string) : string :=
  match s with
  | EmptyString => EmptyString
  | String c s' =>
      match rstrip_char ch s' with
      | EmptyString => if Ascii.eqb c ch then EmptyString else String c EmptyString
      | r => String c r
      end
  end.

(** [sep.join(parts)] *)
Fixpoint join (sep : string) (parts : list string) : string :=
  match parts with
  | [] => ""
  | [p] => p
  | p :: ps => p ++ sep ++ join sep ps
  end.

Definition blank (s : string) : bool := String.eqb (strip s) "".

Fixpoint all_space (s : string) : bool :=
  match s with
  | EmptyString => true
  | String c s' => isspace c && all_space s'
  end.

Definition hex_digit (n : N) : ascii :=
  if (n <? 10)%N then ascii_of_N (48 + n) else ascii_of_N (87 + n).

Definition hex2 (n : N) : string :=
  String (hex_digit (n / 16)) (String (hex_digit (n mod 16)) EmptyString).

Definition str_of_Z (n : Z) : string := NilZero.string_of_int (Z.to_int n).

Fixpoint occurs (ch : ascii) (s : string) : bool :=
  match s with
  | EmptyString => false
  | String c s' => Ascii.eqb c ch || occurs ch s'
  end.

(** [str.isprintable] on one code point below 256. *)
Definition isprintable (c : ascii) : bool :=
  let n := code c in
  ((32 <=? n) && (n <=? 126) || (161 <=? n) && negb (n =? 173))%N.

Fixpoint repr_chars (quote : ascii) (s : string) : string :=
  match s with
  | EmptyString => EmptyString
  | String c s' =>
      let n := code c in
      (if (Ascii.eqb c quote || (n =? 92)%N)%bool then bs ++ String c EmptyString
       else if (n =? 9)%N then bs ++ "t"
       else if (n =? 10)%N then bs ++ "n"
       else if (n =? 13)%N then bs ++ "r"
       else if isprintable c then String c EmptyString
       else bs ++ "x" ++ hex2 n)
      ++ repr_chars quote s'
  end.

(** [repr(s)] of a [str]: single quotes, unless the text has a single quote
    and no double quote. *)
Definition repr_str (s : string) : string :=
  if (occurs "039"%char s && negb (occurs "034"%char s))%bool
  then dq ++ repr_chars "034"%char s ++ dq
  else sq ++ repr_chars "039"%char s ++ sq.

(** [repr(v)] *)
Fixpoint py_repr (v : json) : string :=
  match v with
  | JNull => "None"
  | JBool true => "True"
  | JBool false => "False"
  | JInt n => str_of_Z n
  | JStr s => repr_str s
  | JList l => "[" ++ join ", " (map py_repr l) ++ "]"
  | JObj d =>
      "{" ++ join ", " (map (fun kv : string * json => let (k, x) := kv in
                                       repr_str k ++ ": " ++ py_repr x) d) ++ "}"
  end.

(** [str(v)], what an f-string puts in place of [{v}]. *)
Definition py_str (v : json) : string :=
  match v with
  | JStr s => s
  | _ => py_repr v
  end.

(** [v.strip()]: only a [str] has the method. *)
Definition py_strip (v : json) : result string :=
  match v with
  | JStr s => Ok (strip s)
  | _ => Raise AttributeError
  end.

(* ================================================================= *)
(** ** The fixed system preamble (lines 40-51) *)

Definition ephemeral : json := JObj [("type", JStr "ephemeral")].

Definition text_block (t : string) : json :=
  JObj [("type", JStr "text"); ("text", JStr t); ("cache_control", ephemeral)].

Definition FIXED_SYSTEM : json :=
  JList [ text_block "You are Claude Code, Anthropic's official CLI for Claude.";
          text_block "." ].

(* ================================================================= *)
(** ** [get_user_system_text] (lines 61-71) *)

(** The loop over the items of a list-valued [system]; [parts] is returned
    in the order of the appends. *)
Fixpoint system_parts (items : list json) : result (list string) :=
  match items with
  | [] => Ok []
  | item :: rest =>
      match item with
      | JObj d =>
          t <- py_get item "text" (JStr "") ;;
          s <- py_strip t ;;
          parts <- system_parts rest ;;
          Ok (if String.eqb s "" then parts else s :: parts)
      | _ => system_parts rest
      end
  end.

Definition get_user_system_text (original_system : json) : result string :=
  match original_system with
  | JStr s => if blank s then Ok "" else Ok (strip s)
  | JList items =>
      parts <- system_parts items ;;
      Ok (match parts with [] => "" | _ => join (nl ++ nl) parts end)
  | _ => Ok ""
  end.

(* ================================================================= *)
(** ** [transform_body] (lines 74-124) *)

Definition prefix (user_system : string) : string :=
  "[System Instructions]" ++ nl ++ user_system ++ nl
  ++ "[/System Instructions]" ++ nl ++ nl.

(** Lines 83-88, run on the first message whose role is ["user"]. *)
Definition inject_into (user_system : string) (msg : json) : result json :=
  content <- py_get msg "content" (JStr "") ;;
  match content with
  | JStr s => py_setitem msg "content" (JStr (prefix user_system ++ s))
  | JList (b0 :: blocks) =>
      t <- py_get b0 "text" (JStr "") ;;
      match t with
      | JStr ts =>
          b0' <- py_setitem b0 "text" (JStr (prefix user_system ++ ts)) ;;
          py_setitem msg "content" (JList (b0' :: blocks))
      | _ => Raise TypeError
      end
  | _ => Ok msg
  end.

(** Lines 81-89: the loop that stops at the first user message. *)
Fixpoint inject_loop (user_system : string) (msgs : list json) : result (list json) :=
  match msgs with
  | [] => Ok []
  | msg :: rest =>
      role <- py_get msg "role" JNull ;;
      if py_eq role (JStr "user")
      then msg' <- inject_into user_system msg ;; Ok (msg' :: rest)
      else rest' <- inject_loop user_system rest ;; Ok (msg :: rest')
  end.

(** The generator of line 99, consumed by [any]: it stops at the first block
    with non-blank text. *)
Fixpoint any_text (blocks : list json) : result bool :=
  match blocks with
  | [] => Ok false
  | b :: rest =>
      match b with
      | JObj _ =>
          t <- py_get b "text" (JStr "") ;;
          s <- py_strip t ;;
          if String.eqb s "" then any_text rest else Ok true
      | _ => any_text rest
      end
  end.

(** Lines 94-101: is [msg] an assistant message to skip? *)
Definition empty_assistant (msg : json) : result bool :=
  role <- py_get msg "role" JNull ;;
  if py_eq role (JStr "assistant") then
    c <- py_get msg "content" (JStr "") ;;
    match c with
    | JStr s => Ok (blank s)
    | JList blocks => found <- any_text blocks ;; Ok (negb found)
    | _ => Ok false
    end
  else Ok false.

(** Lines 104 and 105: [m["content"] if isinstance(m["content"], str)
    else m["content"][0].get("text", "")]. *)
Definition merge_text (m : json) : result json :=
  c <- py_getitem m "content" ;;
  match c with
  | JStr _ => Ok c
  | _ => b <- py_index0 c ;; py_get b "text" (JStr "")
  end.

(** Lines 94-108, one iteration.  [cleaned] is held with its last element
    first, so that [cleaned[-1]] is the head. *)
Definition clean_step (cleaned : list json) (msg : json) : result (list json) :=
  skip <- empty_assistant msg ;;
  if skip then Ok cleaned else
  match cleaned with
  | [] => Ok [msg]
  | prev :: before =>
      r1 <- py_getitem prev "role" ;;
      r2 <- py_getitem msg "role" ;;
      if py_eq r1 r2 then
        pt <- merge_text prev ;;
        ct <- merge_text msg ;;
        prev' <- py_setitem prev "content"
                   (JList [text_block (py_str pt ++ nl ++ py_str ct)]) ;;
        Ok (prev' :: before)
      else Ok (msg :: cleaned)
  end.

Fixpoint clean_loop (cleaned : list json) (msgs : list json) : result (list json) :=
  match msgs with
  | [] => Ok cleaned
  | msg :: rest => cleaned' <- clean_step cleaned msg ;; clean_loop cleaned' rest
  end.

(** Lines 92-109: the value bound to [body["messages"]]. *)
Definition clean_messages (msgs : list json) : result (list json) :=
  cleaned <- clean_loop [] msgs ;; Ok (rev cleaned).

(** Lines 118-119. *)
Definition annotate_block (block : json) : json :=
  match block with
  | JObj d =>
      if dict_has "cache_control" d then block
      else JObj (dict_store "cache_control" ephemeral d)
  | _ => block
  end.

(** Lines 113-119, one iteration. *)
Definition annotate_msg (msg : json) : result json :=
  c <- py_get msg "content" (JStr "") ;;
  match c with
  | JStr s => py_setitem msg "content" (JList [text_block s])
  | JList blocks => py_setitem msg "content" (JList (map annotate_block blocks))
  | _ => Ok msg
  end.

Fixpoint annotate_loop (msgs : list json) : result (list json) :=
  match msgs with
  | [] => Ok []
  | msg :: rest =>
      msg' <- annotate_msg msg ;;
      rest' <- annotate_loop rest ;;
      Ok (msg' :: rest')
  end.

(** The messages the loops of lines 81 and 93 iterate over:
    [body.get("messages", [])]. *)
Definition messages_of (d : dict) : result (list json) :=
  match dict_lookup "messages" d with
  | Some v => py_iter v
  | None => Ok []
  end.

(** Lines 80-89.  The loop changes message dictionaries in place, which shows
    in [body] only when [messages] is a list held by [body]. *)
Definition inject_system (user_system : string) (d : dict) : result dict :=
  if String.eqb user_system "" then Ok d else
  msgs <- messages_of d ;;
  msgs' <- inject_loop user_system msgs ;;
  Ok (match dict_lookup "messages" d with
      | Some (JList _) => dict_store "messages" (JList msgs') d
      | _ => d
      end).

Definition transform_body (body : json) : result json :=
  match body with
  | JObj d0 =>
      user_system <- get_user_system_text (lookup_or "system" JNull d0) ;;
      let d1 := dict_store "system" FIXED_SYSTEM d0 in
      d2 <- inject_system user_system d1 ;;
      msgs <- messages_of d2 ;;
      cleaned <- clean_messages msgs ;;
      let d3 := dict_store "messages" (JList cleaned) d2 in
      annotated <- annotate_loop cleaned ;;
      let d4 := dict_store "messages" (JList annotated) d3 in
      Ok (JObj (dict_setdefault "stream" (JBool true)
                 (dict_setdefault "temperature" (JInt 1)
                   (dict_setdefault "max_tokens" (JInt 32000) d4))))
  | _ => Raise AttributeError
  end.

(** The messages of an outbound payload. *)
Definition outbound_messages (body : json) : list json :=
  match body with
  | JObj d => match dict_lookup "messages" d with
              | Some (JList l) => l
              | _ => []
              end
  | _ => []
  end.

(* ================================================================= *)
(** ** [json.dumps] with its default arguments, and the stream test *)

Fixpoint escape_ascii (s : string) : string :=
  match s with
  | EmptyString => EmptyString
  | String c s' =>
      let n := code c in
      (if (n =? 34)%N then bs ++ dq
       else if (n =? 92)%N then bs ++ bs
       else if (n =? 10)%N then bs ++ "n"
       else if (n =? 13)%N then bs ++ "r"
       else if (n =? 9)%N then bs ++ "t"
       else if (n =? 8)%N then bs ++ "b"
       else if (n =? 12)%N then bs ++ "f"
       else if ((32 <=? n) && (n <=? 126))%N then String c EmptyString
       else bs ++ "u00" ++ hex2 n)
      ++ escape_ascii s'
  end.

Definition dumps_str (s : string) : string := dq ++ escape_ascii s ++ dq.

Fixpoint dumps (v : json) : string :=
  match v with
  | JNull => "null"
  | JBool true => "true"
  | JBool false => "false"
  | JInt n => str_of_Z n
  | JStr s => dumps_str s
  | JList l => "[" ++ join ", " (map dumps l) ++ "]"
  | JObj d =>
      "{" ++ join ", " (map (fun kv : string * json => let (k, x) := kv in
                                       dumps_str k ++ ": " ++ dumps x) d) ++ "}"
  end.

Fixpoint starts_with (p s : string) : bool :=
  match p, s with
  | EmptyString, _ => true
  | String a p', String b s' => Ascii.eqb a b && starts_with p' s'
  | String _ _, EmptyString => false
  end.

(** [p in s] on byte strings. *)
Fixpoint contains (p s : string) : bool :=
  starts_with p s ||
  match s with
  | EmptyString => false
  | String _ s' => contains p s'
  end.

(** Line 177. *)
Definition is_stream (body_bytes : string) : bool :=
  contains (dq ++ "stream" ++ dq ++ ": true") body_bytes
  || contains (dq ++ "stream" ++ dq ++ ":true") body_bytes.

(* ================================================================= *)
(** ** The credential rotator (lines 33 and 54-58) *)

(** [itertools.cycle]: the iterator over the source that is still being
    consumed ([None] once it is exhausted), the items saved so far and the
    position in the saved items. *)
Record cycle : Type := mkCycle {
  cy_it : option (list json);
  cy_saved : list json;
  cy_index : nat
}.

Definition new_cycle (items : list json) : cycle := mkCycle (Some items) [] 0.

Definition replay (saved : list json) (index : nat) : option (json * cycle) :=
  match nth_error saved index with
  | None => None
  | Some item =>
      let index' := S index in
      Some (item, mkCycle None saved
                    (if Nat.leb (List.length saved) index' then 0%nat else index'))
  end.

(** [next(c)]; [None] stands for [StopIteration]. *)
Definition cycle_next (c : cycle) : option (json * cycle) :=
  match cy_it c with
  | Some (item :: rest) =>
      Some (item, mkCycle (Some rest) (cy_saved c ++ [item])%list (cy_index c))
  | Some [] => replay (cy_saved c) (cy_index c)
  | None => replay (cy_saved c) (cy_index c)
  end.

Inductive level : Type := LDEBUG | LINFO.

(** The module globals that [reload_config] rebinds, with the level of
    [logger]. *)
Record globals : Type := mkGlobals {
  config : json;
  DEBUG : json;
  ANYROUTER_URL : json;
  FIXED_UA : json;
  API_KEYS : json;
  key_cycle : option cycle;
  logger_level : level
}.

(** [itertools.cycle(API_KEYS) if API_KEYS else None] *)
Definition make_key_cycle (api_keys : json) : result (option cycle) :=
  if py_truth api_keys
  then items <- py_iter api_keys ;; Ok (Some (new_cycle items))
  else Ok None.

(* ----------------------------------------------------------------- *)
(** *** Code that reads and rebinds the globals and may raise *)

Definition M (A : Type) : Type := globals -> result A * globals.

Definition ret {A : Type} (a : A) : M A := fun g => (Ok a, g).

Definition lift {A : Type} (r : result A) : M A := fun g => (r, g).

Definition bindM {A B : Type} (m : M A) (k : A -> M B) : M B :=
  fun g => match m g with
           | (Ok a, g') => k a g'
           | (Raise e, g') => (Raise e, g')
           end.

Notation "x <~ m ;; k" := (bindM m (fun x => k))
  (at level 61, m at next level, right associativity).

(** [try: body  except Exception as e: handler(e)] *)
Definition try_except {A : Type} (body : M A) (handler : exn -> M A) : M A :=
  fun g => match body g with
           | (Ok a, g') => (Ok a, g')
           | (Raise e, g') => handler e g'
           end.

Definition read {A : Type} (field : globals -> A) : M A := fun g => (Ok (field g), g).

Definition set_config (v : json) : M unit := fun g =>
  (Ok tt, mkGlobals v (DEBUG g) (ANYROUTER_URL g) (FIXED_UA g) (API_KEYS g)
                    (key_cycle g) (logger_level g)).
Definition set_DEBUG (v : json) : M unit := fun g =>
  (Ok tt, mkGlobals (config g) v (ANYROUTER_URL g) (FIXED_UA g) (API_KEYS g)
                    (key_cycle g) (logger_level g)).
Definition set_ANYROUTER_URL (v : json) : M unit := fun g =>
  (Ok tt, mkGlobals (config g) (DEBUG g) v (FIXED_UA g) (API_KEYS g)
                    (key_cycle g) (logger_level g)).
Definition set_FIXED_UA (v : json) : M unit := fun g =>
  (Ok tt, mkGlobals (config g) (DEBUG g) (ANYROUTER_URL g) v (API_KEYS g)
                    (key_cycle g) (logger_level g)).
Definition set_API_KEYS (v : json) : M unit := fun g =>
  (Ok tt, mkGlobals (config g) (DEBUG g) (ANYROUTER_URL g) (FIXED_UA g) v
                    (key_cycle g) (logger_level g)).
Definition set_key_cycle (v : option cycle) : M unit := fun g =>
  (Ok tt, mkGlobals (config g) (DEBUG g) (ANYROUTER_URL g) (FIXED_UA g)
                    (API_KEYS g) v (logger_level g)).
Definition set_logger_level (v : level) : M unit := fun g =>
  (Ok tt, mkGlobals (config g) (DEBUG g) (ANYROUTER_URL g) (FIXED_UA g)
                    (API_KEYS g) (key_cycle g) v).

(** [get_next_key] (lines 54-58) *)
Definition get_next_key : M json :=
  kc <~ read key_cycle ;;
  match kc with
  | Some c =>
      match cycle_next c with
      | Some (key, c') => _ <~ set_key_cycle (Some c') ;; ret key
      | None => lift (Raise StopIteration)
      end
  | None => ret (JStr "")
  end.

(** [n] calls in a row: the results handed out, and the globals at the end. *)
Fixpoint next_keys (n : nat) (g : globals) : list (result json) * globals :=
  match n with
  | O => ([], g)
  | S n' =>
      let (k, g1) := get_next_key g in
      let (ks, g2) := next_keys n' g1 in
      (k :: ks, g2)
  end.

(** Lines 19-33: the globals after the module is loaded with the parsed
    [config.json]; [logger_level] is the level [logger] works at. *)
Definition startup (loaded : json) : result globals :=
  debug <- py_get loaded "debug" (JBool false) ;;
  url <- py_get loaded "anyrouter_url" (JStr "") ;;
  ua <- py_get loaded "user_agent" (JStr "") ;;
  keys <- py_get loaded "api_keys" (JList []) ;;
  kc <- make_key_cycle keys ;;
  Ok (mkGlobals loaded debug url ua keys kc
                (if py_truth debug then LDEBUG else LINFO)).

(* ================================================================= *)
(** ** [reload_config] (lines 128-143) *)

(** The [JSONResponse] of the handler: [{"status": "ok", "keys_count": n}]
    with status 200, or [{"status": "error", "message": str(e)}] with status
    500; the message is kept as the exception. *)
Inductive reload_reply : Type :=
| ReloadOk (keys_count : Z)
| ReloadError (e : exn).

Definition reply_status (r : reload_reply) : Z :=
  match r with
  | ReloadOk _ => 200
  | ReloadError _ => 500
  end.

(** [load_config] reads and parses [config.json]; its outcome, a parsed value
    or the exception of [open] or [json.load], is an input here. *)
Definition reload_config (load_config : result json) : M reload_reply :=
  try_except
    (cfg <~ lift load_config ;;
     _ <~ set_config cfg ;;
     debug <~ lift (py_get cfg "debug" (JBool false)) ;;
     _ <~ set_DEBUG debug ;;
     url <~ lift (py_get cfg "anyrouter_url" (JStr "")) ;;
     _ <~ set_ANYROUTER_URL url ;;
     ua <~ lift (py_get cfg "user_agent" (JStr "")) ;;
     _ <~ set_FIXED_UA ua ;;
     keys <~ lift (py_get cfg "api_keys" (JList [])) ;;
     _ <~ set_API_KEYS keys ;;
     kc <~ lift (make_key_cycle keys) ;;
     _ <~ set_key_cycle kc ;;
     _ <~ set_logger_level (if py_truth debug then LDEBUG else LINFO) ;;
     _ <~ lift (py_len keys) ;;
     n <~ lift (py_len keys) ;;
     ret (ReloadOk n))
    (fun e => ret (ReloadError e)).

(* ================================================================= *)
(** ** [proxy] (lines 147-196) *)

Record request : Type := mkRequest {
  method : string;
  authorization : option string;
  path : string;
  req_body : string
}.

(** What is sent upstream: always a POST to [out_url]. *)
Record outbound : Type := mkOutbound {
  out_url : string;
  out_authorization : string;
  out_content_type : string;
  out_user_agent : json;
  out_content : string
}.

(** The upstream response: its status and the chunks [aiter_bytes] yields;
    [content] is their concatenation. *)
Record upstream_response : Type := mkUpstream {
  up_status : Z;
  up_chunks : list string
}.

Definition up_content (resp : upstream_response) : string :=
  fold_left String.append (up_chunks resp) "".

(** The [StreamingResponse] handed back: status, media type, and the chunks
    its body iterator yields, in order. *)
Record response : Type := mkResponse {
  status_code : Z;
  media_type : option string;
  body_chunks : list string
}.

(** Lines 180-191: the chunks the generator [stream] yields. *)
Definition stream (resp : upstream_response) : list string :=
  if negb (Z.eqb (up_status resp) 200)
  then [up_content resp]
  else up_chunks resp.

Section Proxy.

(** [json.loads] and the upstream server are outside the program. *)
Variable json_loads : string -> result json.
Variable upstream : outbound -> upstream_response.

(** Lines 165-175. *)
Definition prepare_body (meth body_bytes : string) : result string :=
  if (String.eqb meth "POST" && negb (String.eqb body_bytes ""))%bool then
    match (body <- json_loads body_bytes ;;
           body' <- transform_body body ;;
           Ok (dumps body')) with
    | Raise JSONDecodeError => Ok body_bytes
    | r => r
    end
  else Ok body_bytes.

(** Lines 152-155. *)
Definition choose_auth (header : option string) : M string :=
  let auth := strip (match header with Some h => h | None => "" end) in
  if (String.eqb auth "" || String.eqb auth "Bearer")%bool then
    key <~ get_next_key ;;
    ret (if py_truth key then "Bearer " ++ py_str key else "")
  else ret auth.

(** Line 163. *)
Definition target_url (url : json) (p : string) : result string :=
  match url with
  | JStr u => Ok (rstrip_char "/"%char u ++ "/" ++ p)
  | _ => Raise AttributeError
  end.

(** Lines 149-175: the request that goes upstream. *)
Definition build_outbound (req : request) : M outbound :=
  auth <~ choose_auth (authorization req) ;;
  ua <~ read FIXED_UA ;;
  base <~ read ANYROUTER_URL ;;
  url <~ lift (target_url base (path req)) ;;
  body_bytes <~ lift (prepare_body (method req) (req_body req)) ;;
  ret (mkOutbound url auth "application/json" ua body_bytes).

(** Lines 177-196: the streamed or the buffered relay. *)
Definition relay (out : outbound) : response :=
  if is_stream (out_content out)
  then mkResponse 200 (Some "text/event-stream") (stream (upstream out))
  else let resp := upstream out in
       mkResponse (up_status resp) None [up_content resp].

Definition proxy (req : request) : M response :=
  out <~ build_outbound req ;;
  ret (relay out).

End Proxy.

(* ================================================================= *)
(** ** Shapes of the data model

    The specification's data model: a turn is an object with a role and a
    content that is a string or a non-empty sequence of blocks; a block is an
    object whose [text], when present, is a string. *)

Definition text_ok (d : dict) : bool :=
  match dict_lookup "text" d with
  | Some (JStr _) => true
  | Some _ => false
  | None => true
  end.

Definition block_ok (b : json) : bool :=
  match b with
  | JObj d => text_ok d
  | _ => false
  end.

Definition content_ok (c : json) : bool :=
  match c with
  | JStr _ => true
  | JList (b :: blocks) => forallb block_ok (b :: blocks)
  | _ => false
  end.

Definition turn_ok (m : json) : bool :=
  match m with
  | JObj d =>
      dict_has "role" d &&
      match dict_lookup "content" d with
      | Some c => content_ok c
      | None => false
      end
  | _ => false
  end.

(** An item of a list-valued [system]: anything but an object whose [text]
    is present and not a string. *)
Definition system_item_ok (item : json) : bool :=
  match item with
  | JObj d => text_ok d
  | _ => true
  end.

Definition system_ok (v : json) : bool :=
  match v with
  | JList items => forallb system_item_ok items
  | _ => true
  end.

(** [messages] is absent or a list of turns. *)
Definition messages_ok (d : dict) : bool :=
  match dict_lookup "messages" d with
  | None => true
  | Some (JList msgs) => forallb turn_ok msgs
  | Some _ => false
  end.

Definition body_ok (body : json) : bool :=
  match body with
  | JObj d => system_ok (lookup_or "system" JNull d) && messages_ok d
  | _ => false
  end.

Definition role_of (m : json) : option json :=
  match m with
  | JObj d => dict_lookup "role" d
  | _ => None
  end.

Definition content_of (m : json) : option json :=
  match m with
  | JObj d => dict_lookup "content" d
  | _ => None
  end.

(** [msg.get("role") == "user"] on a message that is an object. *)
Definition is_user (m : json) : bool :=
  match m with
  | JObj d => py_eq (lookup_or "role" JNull d) (JStr "user")
  | _ => false
  end.

Definition not_user (m : json) : bool :=
  match m with
  | JObj d => negb (py_eq (lookup_or "role" JNull d) (JStr "user"))
  | _ => false
  end.

Definition role_is (r : string) (m : json) : bool :=
  match role_of m with
  | Some (JStr r') => String.eqb r' r
  | _ => false
  end.

(** A turn of the data model whose role is a string. *)
Definition turn_typed (m : json) : bool :=
  turn_ok m && match role_of m with Some (JStr _) => true | _ => false end.

(** No two neighbours of [msgs] have roles that compare equal; every turn
    with a neighbour has a role. *)
Fixpoint adjacent_roles_differ (msgs : list json) : Prop :=
  match msgs with
  | m1 :: rest =>
      match rest with
      | m2 :: _ =>
          (exists r1 r2, role_of m1 = Some r1 /\ role_of m2 = Some r2
                         /\ py_eq r1 r2 = false)
          /\ adjacent_roles_differ rest
      | [] => True
      end
  | [] => True
  end.

(** The same on the list [cleaned] of the loop, held last element first. *)
Fixpoint stack_roles_differ (cleaned : list json) : Prop :=
  match cleaned with
  | later :: rest =>
      match rest with
      | earlier :: _ =>
          (exists r1 r2, role_of earlier = Some r1 /\ role_of later = Some r2
                         /\ py_eq r1 r2 = false)
          /\ stack_roles_differ rest
      | [] => True
      end
  | [] => True
  end.

(* ================================================================= *)
(** ** The loop of lines 92-109 in closed form

    What the loop computes on turns of the data model, written without the
    error monad: the test of lines 94-101, the text lines 104-105 read from
    a turn, and the walk that merges into the last retained turn. *)

Definition block_blank (b : json) : bool :=
  match b with
  | JObj d => match dict_lookup "text" d with
              | Some (JStr t) => blank t
              | _ => true
              end
  | _ => true
  end.

(** Step 2: an assistant turn whose content is a blank string, or whose
    content blocks all have blank text. *)
Definition spec_empty_assistant (m : json) : bool :=
  role_is "assistant" m &&
  match content_of m with
  | Some (JStr s) => blank s
  | Some (JList blocks) => forallb block_blank blocks
  | _ => false
  end.

(** The text lines 104-105 read from a turn: its string content, or the [text]
    of block [0] of its block list; the other blocks are not read. *)
Definition first_text (m : json) : string :=
  match content_of m with
  | Some (JStr s) => s
  | Some (JList (JObj bd :: _)) =>
      match dict_lookup "text" bd with
      | Some (JStr t) => t
      | _ => ""
      end
  | _ => ""
  end.

Definition same_role (a b : json) : bool :=
  match role_of a, role_of b with
  | Some (JStr ra), Some (JStr rb) => String.eqb ra rb
  | _, _ => false
  end.

Definition with_content (m : json) (c : json) : json :=
  match m with
  | JObj d => JObj (dict_store "content" c d)
  | _ => m
  end.

(** Lines 102-108, walking the turns in order: [cur] is [cleaned[-1]]. *)
Fixpoint merge_from (cur : json) (rest : list json) : list json :=
  match rest with
  | [] => [cur]
  | m :: rest' =>
      if same_role cur m
      then merge_from
             (with_content cur (JList [text_block (first_text cur ++ nl ++ first_text m)]))
             rest'
      else cur :: merge_from m rest'
  end.

Definition merge_adjacent (msgs : list json) : list json :=
  match msgs with
  | [] => []
  | m :: rest => merge_from m rest
  end.

Definition retained_turns (msgs : list json) : list json :=
  merge_adjacent (filter (fun m => negb (spec_empty_assistant m)) msgs).

(* ================================================================= *)
(** ** The caching annotation as the specification words it (section 4.3,
       step 4) *)

(** A block object lacking [cache_control] gets the annotation added after
    its own fields; a block that has the key, and an element that is not an
    object, are left as they are. *)
Definition spec_annotate_block (b : json) : json :=
  match b with
  | JObj d =>
      match dict_lookup "cache_control" d with
      | Some _ => b
      | None => JObj (d ++ [("cache_control", ephemeral)])
      end
  | _ => b
  end.

(** A plain-string content is lifted into one block with that text and an
    annotation, an absent content counting as the empty string; a block
    list is annotated block by block; any other content is left as it
    is. *)
Definition spec_annotate_turn (m : json) : json :=
  match m with
  | JObj d =>
      match dict_lookup "content" d with
      | Some (JStr s) => JObj (dict_store "content" (JList [text_block s]) d)
      | Some (JList blocks) =>
          JObj (dict_store "content" (JList (map spec_annotate_block blocks)) d)
      | Some _ => m
      | None => JObj (d ++ [("content", JList [text_block ""])])
      end
  | _ => m
  end.

(** A block object that carries [cache_control]. *)
Definition has_annotation (b : json) : bool :=
  match b with
  | JObj bd => dict_has "cache_control" bd
  | _ => false
  end.

(** A turn whose content is a non-empty list of block objects, each
    carrying [cache_control]. *)
Definition fully_annotated (m : json) : bool :=
  match content_of m with
  | Some (JList (b :: blocks)) => forallb has_annotation (b :: blocks)
  | _ => false
  end.

(** Lines 76-109: the turns the annotation loop of line 112 runs over. *)
Definition normalized_messages (body : json) : result (list json) :=
  match body with
  | JObj d0 =>
      user_system <- get_user_system_text (lookup_or "system" JNull d0) ;;
      d2 <- inject_system user_system (dict_store "system" FIXED_SYSTEM d0) ;;
      msgs <- messages_of d2 ;;
      clean_messages msgs
  | _ => Raise AttributeError
  end.

(* ================================================================= *)
(** ** The system-prompt extractor as the specification words it
       (section 4.2) *)

(** The trimmed text of an item that has non-blank text; nothing for an item
    without usable text. *)
Definition item_text (item : json) : list string :=
  match item with
  | JObj d =>
      match dict_lookup "text" d with
      | Some (JStr t) => if blank t then [] else [strip t]
      | _ => []
      end
  | _ => []
  end.

Definition system_texts (items : list json) : list string :=
  flat_map item_text items.

(* ================================================================= *)
(** ** Calls of the rotator counted from a given state *)

(** The result of call number [k + 1] to [get_next_key] from [g]. *)
Definition call (k : nat) (g : globals) : result json :=
  fst (get_next_key (snd (next_keys k g))).

(** The cycle stands at position [i] of [pool]: the next item it hands out
    is item [i]. *)
Inductive at_position (pool : list json) : nat -> cycle -> Prop :=
| pos_first_pass i :
    i < List.length pool ->
    at_position pool i (mkCycle (Some (skipn i pool)) (firstn i pool) 0)
| pos_exhausted :
    at_position pool 0 (mkCycle (Some []) pool 0)
| pos_replay i :
    i < List.length pool ->
    at_position pool i (mkCycle None pool i).

(* ================================================================= *)
(** ** Sample values *)

Definition globals_with (pool : list json) (kc : option cycle) : globals :=
  mkGlobals (JObj [("api_keys", JList pool)]) (JBool false) (JStr "")
            (JStr "") (JList pool) kc LINFO.


Definition user (c : json) : json :=
  JObj [("role", JStr "user"); ("content", c)].

Definition assistant (c : json) : json :=
  JObj [("role", JStr "assistant"); ("content", c)].

(** An inbound text block, without annotation. *)
Definition text (t : string) : json :=
  JObj [("type", JStr "text"); ("text", JStr t)].

Definition thinking (t : string) : json :=
  JObj [("type", JStr "thinking"); ("thinking", JStr t)].

Definition two_keys : list json := [JStr "k1"; JStr "k2"].

Definition running : globals := globals_with two_keys (Some (new_cycle two_keys)).

(** A snapshot that parses but whose [api_keys] is a number. *)
Definition bad_snapshot : json :=
  JObj [("anyrouter_url", JStr "http://new"); ("api_keys", JInt 5)].

Definition good_snapshot : json :=
  JObj [("debug", JBool true); ("anyrouter_url", JStr "http://new");
        ("user_agent", JStr "ua"); ("api_keys", JList [JStr "k3"])].

(** The upstream error body of the specification's scenario. *)
Definition rate_limited : string :=
  "{" ++ dq ++ "error" ++ dq ++ ":" ++ dq ++ "rate limited" ++ dq ++ "}".

(** An upstream that answers 429 and sends the error body in two chunks. *)
Definition rate_limiting_upstream (_ : outbound) : upstream_response :=
  mkUpstream 429 ["{" ++ dq ++ "error" ++ dq ++ ":";
                  dq ++ "rate limited" ++ dq ++ "}"].

Definition hello_body : json :=
  JObj [("messages", JList [user (JStr "hi")])].

Definition hello_request : request :=
  mkRequest "POST" None "v1/messages" (dumps hello_body).

(** A body that asks for no streaming and carries a [stream] field inside a
    content block. *)
Definition misfire_body : json :=
  JObj [("stream", JBool false);
        ("messages",
         JList [user (JList [JObj [("type", JStr "text"); ("text", JStr "hi");
                                   ("stream", JBool true)]])])].

(** A body that is not JSON and quotes the flag in its text. *)
Definition misfire_text : string :=
  "say " ++ dq ++ "stream" ++ dq ++ ": true".

(** A system input one of whose items has a [text] that is not a string. *)
Definition null_text_system : json :=
  JList [JObj [("type", JStr "text"); ("text", JNull)]].

(** A body with caller system text whose only user turn has an empty block
    list. *)
Definition empty_content_body : json :=
  JObj [("system", JStr "S"); ("messages", JList [user (JList [])])].

(** Two user turns in a row, the first with an empty block list. *)
Definition empty_blocks_body : json :=
  JObj [("messages", JList [user (JList []); user (JStr "x")])].

(** A turn without a role after a user turn. *)
Definition missing_role_body : json :=
  JObj [("messages", JList [user (JStr "a"); JObj [("content", JStr "x")]])].

(** An assistant turn with a block whose text is a number. *)
Definition number_text_body : json :=
  JObj [("messages",
         JList [assistant (JList [JObj [("type", JStr "text"); ("text", JInt 5)]])])].

(** The first scenario of section 8 of the specification. *)
Definition terse_body : json :=
  JObj [("system", JStr "Be terse."); ("messages", JList [user (JStr "hi")])].

(** The second scenario of section 8 of the specification. *)
Definition merge_scenario : list json :=
  [user (JStr "a"); assistant (JStr ""); assistant (JStr "b"); assistant (JStr "c")].

Definition merge_scenario_body : json := JObj [("messages", JList merge_scenario)].

(** Two assistant turns in a row, each a thinking block followed by a text
    block. *)
Definition thinking_body : json :=
  JObj [("messages",
         JList [user (JStr "q");
                assistant (JList [thinking "t1"; text "a1"]);
                assistant (JList [thinking "t2"; text "a2"])])].

(** The text [get_user_system_text] draws from [FIXED_SYSTEM]. *)
Definition fixed_system_text : string :=
  "You are Claude Code, Anthropic's official CLI for Claude." ++ nl ++ nl ++ ".".

(** The keys [transform_body] writes. *)
Definition written_key (k : string) : bool :=
  String.eqb k "system" || String.eqb k "messages" || String.eqb k "max_tokens"
  || String.eqb k "temperature" || String.eqb k "stream".

(** A body that sets its own generation parameters and carries a field the
    program does not know. *)
Definition tuned_body : json :=
  JObj [("model", JStr "m"); ("max_tokens", JInt 5); ("stream", JBool false);
        ("temperature", JNull); ("messages", JList [user (JStr "hi")])].

(** No turn of [msgs] has the role of the turn before it. *)
Fixpoint alternating (msgs : list json) : bool :=
  match msgs with
  | a :: rest =>
      match rest with
      | b :: _ => negb (same_role a b) && alternating rest
      | [] => true
      end
  | [] => true
  end.

Definition conversation : list json :=
  [user (JStr "q1"); assistant (JList [thinking "t"; text "a1"]); user (JStr "q2")].

(** The exceptions the operations on parsed values raise. *)
Definition runtime_error (e : exn) : bool :=
  match e with
  | AttributeError | KeyError | IndexError | TypeError => true
  | _ => false
  end.

Definition raises_only {A : Type} (r : result A) : Prop :=
  forall e, r = Raise e -> runtime_error e = true.

(** The globals [proxy] may only read. *)
Definition same_config (g g' : globals) : Prop :=
  config g' = config g /\ DEBUG g' = DEBUG g
  /\ ANYROUTER_URL g' = ANYROUTER_URL g /\ FIXED_UA g' = FIXED_UA g
  /\ API_KEYS g' = API_KEYS g /\ logger_level g' = logger_level g.

Definition own_key_request : request :=
  mkRequest "POST" (Some " Bearer sk-own ") "v1/messages" (dumps hello_body).

Definition idle : globals := globals_with [] None.

Fixpoint all_char (ch : ascii) (s : string) : bool :=
  match s with
  | EmptyString => true
  | String c s' => Ascii.eqb c ch && all_char ch s'
  end.

(** A snapshot whose [api_keys] is one string instead of a list. *)
Definition string_keys_snapshot : json := JObj [("api_keys", JStr "ab")].

(** A snapshot that parses and whose [api_keys] is [null]. *)
Definition null_keys_snapshot : json := JObj [("api_keys", JNull)].

(** A turn whose block list holds a string instead of a block object. *)
Definition string_block_body : json :=
  JObj [("messages", JList [user (JList [JStr "hi"])])].

(** A turn whose content is one block object, not in a list. *)
Definition object_content_body : json :=
  JObj [("messages", JList [user (text "hi")])].

(** A block that arrives with its own annotation beside one that has none. *)
Definition annotated_body : json :=
  JObj [("messages",
         JList [user (JList [JObj [("type", JStr "text"); ("text", JStr "x");
                                   ("cache_control", JObj [("type", JStr "persistent")])];
                             text "y"])])].

(** Two user turns in a row, the first with two text blocks. *)
Definition two_block_body : json :=
  JObj [("messages", JList [user (JList [text "a"; text "b"]); user (JStr "c")])].
(* ================================================================= *)
(** * Properties *)

(* ================================================================= *)
(** ** The error monad *)

Lemma bind_Ok {A B : Type} (m : result A) (k : A -> result B) (b : B) :
  bind m k = Ok b -> exists a, m = Ok a /\ k a = Ok b.
Proof.
  destruct m as [a | e]; simpl; intro H.
  - exists a. split; [reflexivity | exact H].
  - discriminate H.
Qed.

(* ================================================================= *)
(** ** [strip] *)

Lemma lstrip_decompose (s : string) :
  exists l, s = l ++ lstrip s /\ all_space l = true.
Proof.
  induction s as [| c s IH]; simpl.
  - exists "". split; reflexivity.
  - destruct (isspace c) eqn:Hc.
    + destruct IH as [l [Hs Hl]].
      exists (String c l). simpl. rewrite Hc, Hl, <- Hs. split; reflexivity.
    + exists "". split; reflexivity.
Qed.

Lemma rstrip_decompose (s : string) :
  exists r, s = rstrip s ++ r /\ all_space r = true.
Proof.
  induction s as [| c s IH]; simpl.
  - exists "". split; reflexivity.
  - destruct IH as [r [Hs Hr]].
    destruct (rstrip s) as [| x y] eqn:Hrs.
    + simpl in Hs. subst r.
      destruct (isspace c) eqn:Hc.
      * exists (String c s). simpl. rewrite Hc, Hr. split; reflexivity.
      * exists s. split; [reflexivity | exact Hr].
    + exists r. simpl. split; [rewrite Hs at 1; reflexivity | exact Hr].
Qed.

(** [strip] removes a run of whitespace at each end and nothing else. *)
Lemma strip_decompose (s : string) :
  exists l r, s = l ++ strip s ++ r /\ all_space l = true /\ all_space r = true.
Proof.
  destruct (lstrip_decompose s) as [l [Hl Hsl]].
  destruct (rstrip_decompose (lstrip s)) as [r [Hr Hsr]].
  exists l, r. unfold strip. rewrite <- Hr. auto.
Qed.


(* ================================================================= *)
(** ** The credential rotator *)

Section Rotator.

Variable pool : list json.

Lemma skipn_nth_cons (i : nat) :
  i < List.length pool ->
  skipn i pool = nth i pool JNull :: skipn (S i) pool.
Proof.
  revert i. induction pool as [| x l IH]; intros i Hi; simpl in Hi.
  - lia.
  - destruct i as [| i]; [reflexivity |].
    simpl. apply IH. lia.
Qed.

Lemma firstn_snoc_nth (i : nat) :
  i < List.length pool ->
  (firstn i pool ++ [nth i pool JNull])%list = firstn (S i) pool.
Proof.
  revert i. induction pool as [| x l IH]; intros i Hi; simpl in Hi.
  - lia.
  - destruct i as [| i]; [reflexivity |].
    simpl. f_equal. apply IH. lia.
Qed.

Lemma replay_at (i : nat) :
  i < List.length pool ->
  replay pool i
  = Some (nth i pool JNull, mkCycle None pool (S i mod List.length pool)).
Proof.
  intro Hi. unfold replay.
  rewrite (nth_error_nth' pool JNull Hi).
  do 3 f_equal.
  destruct (Nat.leb_spec (List.length pool) (S i)) as [Hle | Hlt].
  - assert (S i = List.length pool) as -> by lia.
    symmetry. apply Nat.Div0.mod_same.
  - symmetry. apply Nat.mod_small. exact Hlt.
Qed.

(** One call moves the cycle from position [i] to position [i + 1], wrapping
    at the end of the pool. *)
Lemma cycle_next_at (i : nat) (c : cycle) :
  at_position pool i c ->
  i < List.length pool ->
  exists c', cycle_next c = Some (nth i pool JNull, c')
             /\ at_position pool (S i mod List.length pool) c'.
Proof.
  intros Hpos Hi.
  destruct Hpos as [i Hlt | | i Hlt]; unfold cycle_next; simpl.
  - rewrite (skipn_nth_cons i Hlt), (firstn_snoc_nth i Hlt).
    eexists. split; [reflexivity |].
    destruct (Nat.eq_dec (S i) (List.length pool)) as [Heq | Hne].
    + rewrite Heq, Nat.Div0.mod_same, skipn_all, firstn_all.
      apply pos_exhausted.
    + rewrite Nat.mod_small by lia.
      apply pos_first_pass. lia.
  - rewrite (replay_at 0 Hi).
    eexists. split; [reflexivity |].
    apply pos_replay. apply Nat.mod_upper_bound. lia.
  - rewrite (replay_at i Hlt).
    eexists. split; [reflexivity |].
    apply pos_replay. apply Nat.mod_upper_bound. lia.
Qed.

Lemma get_next_key_at (i : nat) (c : cycle) (g : globals) :
  key_cycle g = Some c ->
  at_position pool i c ->
  i < List.length pool ->
  exists g' c', get_next_key g = (Ok (nth i pool JNull), g')
                /\ key_cycle g' = Some c'
                /\ at_position pool (S i mod List.length pool) c'.
Proof.
  intros Hg Hpos Hi.
  destruct (cycle_next_at i c Hpos Hi) as [c' [Hnext Hpos']].
  unfold get_next_key, bindM, read, set_key_cycle, ret.
  rewrite Hg, Hnext.
  eexists. exists c'. split; [reflexivity |]. split; [reflexivity | exact Hpos'].
Qed.

Lemma call_succ (k : nat) (g : globals) :
  call (S k) g = call k (snd (get_next_key g)).
Proof.
  unfold call. simpl.
  destruct (get_next_key g) as [r g1]. simpl.
  destruct (next_keys k g1) as [ks g2]. reflexivity.
Qed.

(** From position [i], call number [k + 1] hands out item [(i + k) mod N]. *)
Lemma call_at (k : nat) :
  forall (i : nat) (c : cycle) (g : globals),
    key_cycle g = Some c ->
    at_position pool i c ->
    i < List.length pool ->
    call k g = Ok (nth ((i + k) mod List.length pool) pool JNull).
Proof.
  induction k as [| k IH]; intros i c g Hg Hpos Hi.
  - destruct (get_next_key_at i c g Hg Hpos Hi) as [g' [c' [Hcall _]]].
    unfold call. simpl. rewrite Hcall. simpl.
    rewrite Nat.add_0_r, Nat.mod_small by exact Hi. reflexivity.
  - destruct (get_next_key_at i c g Hg Hpos Hi) as [g' [c' [Hcall [Hg' Hpos']]]].
    rewrite call_succ, Hcall. simpl.
    rewrite (IH (S i mod List.length pool) c' g' Hg' Hpos').
    + do 2 f_equal.
      rewrite Nat.Div0.add_mod_idemp_l. f_equal. lia.
    + apply Nat.mod_upper_bound. lia.
Qed.

End Rotator.

(** While the source iterator still has [rest] to give, the next
    [length rest] calls hand out [rest], in order. *)
Lemma next_keys_first_pass (rest : list json) :
  forall (saved : list json) (index : nat) (g : globals),
    key_cycle g = Some (mkCycle (Some rest) saved index) ->
    fst (next_keys (List.length rest) g) = map Ok rest.
Proof.
  induction rest as [| item rest IH]; intros saved index g Hg.
  - reflexivity.
  - simpl.
    unfold get_next_key at 1, bindM, read, set_key_cycle, ret.
    rewrite Hg. unfold cycle_next. simpl.
    match goal with
    | |- context [next_keys _ ?g1] =>
        pose proof (IH (saved ++ [item])%list index g1 eq_refl) as Hrest;
        destruct (next_keys (List.length rest) g1) as [ks g2]
    end.
    simpl in *. rewrite Hrest. reflexivity.
Qed.

Lemma call_no_cycle (k : nat) :
  forall g : globals, key_cycle g = None -> call k g = Ok (JStr "").
Proof.
  induction k as [| k IH]; intros g Hg.
  - unfold call, get_next_key, bindM, read, ret. simpl. rewrite Hg. reflexivity.
  - rewrite call_succ. apply IH.
    unfold get_next_key, bindM, read, ret. rewrite Hg. simpl. exact Hg.
Qed.

(** C5: for a pool of N >= 1 credentials, N calls to [get_next_key] in a row
    return the pool, each element once and in pool order, and call N + 1
    returns what call 1 returned; with an empty pool every call returns the
    empty credential and none raises. *)
Theorem rotation_round_robin (pool : list json) (g : globals) :
  make_key_cycle (JList pool) = Ok (key_cycle g) ->
  (pool <> [] ->
     fst (next_keys (List.length pool) g) = map Ok pool
     /\ call (List.length pool) g = call 0 g
     /\ forall k, call k g = Ok (nth (k mod List.length pool) pool JNull))
  /\ (pool = [] -> forall k, call k g = Ok (JStr "")).
Proof.
  intro Hfresh. split.
  - intro Hne.
    destruct pool as [| key keys] eqn:Hpool; [contradiction |].
    rewrite <- Hpool in *.
    assert (Hg : key_cycle g = Some (new_cycle pool)).
    { rewrite Hpool in Hfresh. simpl in Hfresh.
      injection Hfresh as Hfresh. rewrite Hpool. symmetry. exact Hfresh. }
    assert (Hlen : 0 < List.length pool) by (rewrite Hpool; simpl; lia).
    assert (Hpos : at_position pool 0 (new_cycle pool))
      by (apply (pos_first_pass pool 0 Hlen)).
    assert (Hcall : forall k,
               call k g = Ok (nth (k mod List.length pool) pool JNull)).
    { intro k. apply (call_at pool k 0 (new_cycle pool) g Hg Hpos Hlen). }
    split; [| split].
    + apply (next_keys_first_pass pool [] 0 g Hg).
    + rewrite (Hcall (List.length pool)), (Hcall 0).
      rewrite Nat.Div0.mod_same, Nat.Div0.mod_0_l. reflexivity.
    + exact Hcall.
  - intros Hempty k. subst pool. simpl in Hfresh.
    injection Hfresh as Hfresh.
    apply call_no_cycle. symmetry. exact Hfresh.
Qed.

Lemma rotation_round_robin_witness :
  fst (next_keys 2 (globals_with [JStr "k1"; JStr "k2"]
                      (Some (new_cycle [JStr "k1"; JStr "k2"]))))
  = [Ok (JStr "k1"); Ok (JStr "k2")].
Proof.
  apply (rotation_round_robin [JStr "k1"; JStr "k2"]
           (globals_with [JStr "k1"; JStr "k2"]
              (Some (new_cycle [JStr "k1"; JStr "k2"])))).
  - reflexivity.
  - discriminate.
Defined.

(* ================================================================= *)
(** ** Configuration reload *)

(** What [reload_config] does once the snapshot is loaded and is an object:
    the four values are rebound first, the cycle is rebuilt next, the count
    is taken last; the handler keeps whatever was rebound before the
    exception. *)
Lemma reload_config_object (d : dict) (g : globals) :
  reload_config (Ok (JObj d)) g =
  let debug := lookup_or "debug" (JBool false) d in
  let url := lookup_or "anyrouter_url" (JStr "") d in
  let ua := lookup_or "user_agent" (JStr "") d in
  let keys := lookup_or "api_keys" (JList []) d in
  let lvl := if py_truth debug then LDEBUG else LINFO in
  match make_key_cycle keys with
  | Raise e =>
      (Ok (ReloadError e),
       mkGlobals (JObj d) debug url ua keys (key_cycle g) (logger_level g))
  | Ok kc =>
      match py_len keys with
      | Raise e => (Ok (ReloadError e), mkGlobals (JObj d) debug url ua keys kc lvl)
      | Ok n => (Ok (ReloadOk n), mkGlobals (JObj d) debug url ua keys kc lvl)
      end
  end.
Proof.
  unfold reload_config, try_except, bindM, lift, ret, lookup_or.
  unfold set_config, set_DEBUG, set_ANYROUTER_URL, set_FIXED_UA, set_API_KEYS,
    set_key_cycle, set_logger_level.
  simpl.
  destruct (make_key_cycle _) as [kc | e]; simpl; [| reflexivity].
  destruct (py_len _) as [n | e]; reflexivity.
Qed.

Lemma reload_config_not_object (cfg : json) (g : globals) :
  (forall d, cfg <> JObj d) ->
  reload_config (Ok cfg) g
  = (Ok (ReloadError AttributeError),
     mkGlobals cfg (DEBUG g) (ANYROUTER_URL g) (FIXED_UA g) (API_KEYS g)
               (key_cycle g) (logger_level g)).
Proof.
  intro Hcfg.
  destruct cfg; try reflexivity.
  exfalso. apply (Hcfg d). reflexivity.
Qed.

(** C7, as the code has it: [reload_config] never raises; when [load_config]
    fails, the globals (configuration values, pool and cursor) are left as
    they were and the failure is returned with status 500; when the reload
    succeeds, the configuration values and the pool are those of the new
    snapshot, the cycle is a new one standing at the start of the new pool,
    and the reply carries the number of credentials. *)
Theorem reload_config_outcome (load_config : result json) (g : globals) :
  (exists r g', reload_config load_config g = (Ok r, g'))
  /\ (forall e, load_config = Raise e ->
        reload_config load_config g = (Ok (ReloadError e), g)
        /\ reply_status (ReloadError e) = 500%Z)
  /\ (forall n g', reload_config load_config g = (Ok (ReloadOk n), g') ->
        exists d, load_config = Ok (JObj d)
          /\ config g' = JObj d
          /\ DEBUG g' = lookup_or "debug" (JBool false) d
          /\ ANYROUTER_URL g' = lookup_or "anyrouter_url" (JStr "") d
          /\ FIXED_UA g' = lookup_or "user_agent" (JStr "") d
          /\ API_KEYS g' = lookup_or "api_keys" (JList []) d
          /\ make_key_cycle (API_KEYS g') = Ok (key_cycle g')
          /\ py_len (API_KEYS g') = Ok n)
  /\ (forall d pool, load_config = Ok (JObj d) ->
        lookup_or "api_keys" (JList []) d = JList pool ->
        exists g', reload_config load_config g
                   = (Ok (ReloadOk (Z.of_nat (List.length pool))), g')
          /\ API_KEYS g' = JList pool
          /\ key_cycle g' = match pool with
                            | [] => None
                            | _ => Some (new_cycle pool)
                            end).
Proof.
  split; [| split; [| split]].
  - destruct load_config as [cfg | e].
    + destruct cfg; try (eexists; eexists; reflexivity).
      rewrite reload_config_object. cbv zeta.
      destruct (make_key_cycle _); [| eexists; eexists; reflexivity].
      destruct (py_len _); eexists; eexists; reflexivity.
    + eexists. eexists. reflexivity.
  - intros e ->. split; reflexivity.
  - intros n g' H.
    destruct load_config as [cfg | e]; [| discriminate H].
    destruct cfg; try discriminate H.
    rewrite reload_config_object in H. cbv zeta in H.
    destruct (make_key_cycle _) as [kc | e] eqn:Hkc; [| discriminate H].
    destruct (py_len _) as [m | e] eqn:Hlen; [| discriminate H].
    injection H as Hn Hg. subst g' m.
    exists d. simpl. repeat split; assumption.
  - intros d pool -> Hkeys.
    rewrite reload_config_object. cbv zeta.
    rewrite Hkeys.
    destruct pool as [| key keys]; simpl; eexists; repeat split; reflexivity.
Qed.

Lemma reload_config_outcome_witness :
  exists g', reload_config (Ok good_snapshot) running = (Ok (ReloadOk 1), g')
             /\ API_KEYS g' = JList [JStr "k3"]
             /\ key_cycle g' = Some (new_cycle [JStr "k3"]).
Proof.
  destruct (reload_config_outcome (Ok good_snapshot) running)
    as [_ [_ [_ Hgood]]].
  apply (Hgood [("debug", JBool true); ("anyrouter_url", JStr "http://new");
                ("user_agent", JStr "ua"); ("api_keys", JList [JStr "k3"])]
               [JStr "k3"]); reflexivity.
Defined.

(** C7, as the claim states it, fails: the snapshot [bad_snapshot] parses,
    the reload fails with status 500 on its [api_keys], and the upstream URL
    has been replaced all the same. *)
Lemma reload_config_partial_update :
  fst (reload_config (Ok bad_snapshot) running) = Ok (ReloadError TypeError)
  /\ ANYROUTER_URL (snd (reload_config (Ok bad_snapshot) running)) = JStr "http://new"
  /\ ANYROUTER_URL running = JStr ""
  /\ key_cycle (snd (reload_config (Ok bad_snapshot) running)) = key_cycle running
  /\ snd (reload_config (Ok bad_snapshot) running) <> running.
Proof.
  repeat split; try reflexivity.
  intro H. apply (f_equal ANYROUTER_URL) in H. discriminate H.
Qed.

(* ================================================================= *)
(** ** The relay *)

(** C6: on the streaming path, when the upstream status is not 200 the whole
    upstream body is gathered and handed to the caller as the one chunk of a
    stream whose own status is 200. *)
Theorem streaming_error_single_chunk
    (json_loads : string -> result json)
    (upstream : outbound -> upstream_response)
    (req : request) (g g' : globals) (out : outbound) :
  build_outbound json_loads req g = (Ok out, g') ->
  is_stream (out_content out) = true ->
  up_status (upstream out) <> 200%Z ->
  proxy json_loads upstream req g
  = (Ok (mkResponse 200 (Some "text/event-stream") [up_content (upstream out)]), g').
Proof.
  intros Hout Hstream Hstatus.
  unfold proxy, bindM. rewrite Hout.
  unfold ret, relay, stream. rewrite Hstream.
  destruct (Z.eqb_spec (up_status (upstream out)) 200) as [Heq | Hne].
  - contradiction.
  - reflexivity.
Qed.

(** The scenario of C6: the upstream answers 429 with the body
    [{"error":"rate limited"}] in two chunks; the caller receives a single
    chunk equal to that body. *)
Lemma streaming_error_single_chunk_witness :
  fst (proxy (fun _ => Ok hello_body) rate_limiting_upstream hello_request running)
  = Ok (mkResponse 200 (Some "text/event-stream") [rate_limited]).
Proof.
  destruct (build_outbound (fun _ => Ok hello_body) hello_request running)
    as [r g'] eqn:Hout.
  destruct r as [out | e]; [| vm_compute in Hout; discriminate Hout].
  rewrite (streaming_error_single_chunk (fun _ => Ok hello_body)
             rate_limiting_upstream hello_request running g' out Hout).
  - reflexivity.
  - vm_compute in Hout. injection Hout as Hout _. subst out. reflexivity.
  - discriminate.
Defined.

(** C10: whether the relay streams is decided by the presence of one of two
    byte patterns in the serialized outbound body, not by the [stream] field
    of the payload: a payload whose [stream] field is false streams because a
    nested field serializes to the pattern, and a body that is not JSON and
    has no [stream] field at all streams because its text quotes the
    pattern. *)
Theorem stream_decision_is_byte_scan :
  (forall (upstream : outbound -> upstream_response) (out : outbound),
      media_type (relay upstream out) = Some "text/event-stream"
      <-> (contains (dq ++ "stream" ++ dq ++ ": true") (out_content out) = true
           \/ contains (dq ++ "stream" ++ dq ++ ":true") (out_content out) = true))
  /\ (exists out_body,
        transform_body misfire_body = Ok out_body
        /\ py_get out_body "stream" JNull = Ok (JBool false)
        /\ is_stream (dumps out_body) = true
        /\ (forall (json_loads : string -> result json) (body_bytes : string),
              body_bytes <> "" ->
              json_loads body_bytes = Ok misfire_body ->
              prepare_body json_loads "POST" body_bytes = Ok (dumps out_body))
        /\ (forall upstream url auth ua,
              media_type (relay upstream
                            (mkOutbound url auth "application/json" ua (dumps out_body)))
              = Some "text/event-stream"))
  /\ (forall (json_loads : string -> result json),
        prepare_body json_loads "PUT" misfire_text = Ok misfire_text)
  /\ (forall (json_loads : string -> result json),
        json_loads misfire_text = Raise JSONDecodeError ->
        prepare_body json_loads "POST" misfire_text = Ok misfire_text)
  /\ is_stream misfire_text = true.
Proof.
  split; [| split; [| split; [| split]]].
  - intros upstream out. unfold relay, is_stream.
    destruct (contains (dq ++ "stream" ++ dq ++ ": true") (out_content out));
      destruct (contains (dq ++ "stream" ++ dq ++ ":true") (out_content out));
      simpl; split; intro H; try reflexivity; try discriminate H;
      try (left; reflexivity); try (right; reflexivity).
    destruct H as [H | H]; discriminate H.
  - destruct (transform_body misfire_body) as [out_body | e] eqn:Hout;
      [| vm_compute in Hout; discriminate Hout].
    vm_compute in Hout. injection Hout as Hout. subst out_body.
    eexists. split; [reflexivity |].
    split; [reflexivity |].
    split; [vm_compute; reflexivity |].
    split.
    + intros json_loads body_bytes Hne Hloads.
      unfold prepare_body.
      destruct (String.eqb_spec body_bytes "") as [Heq | _]; [contradiction |].
      simpl. rewrite Hloads. vm_compute. reflexivity.
    + intros upstream url auth ua. unfold relay.
      cbn [out_content].
      match goal with
      | |- context [is_stream ?b] =>
          replace (is_stream b) with true by (vm_compute; reflexivity)
      end.
      reflexivity.
  - intro json_loads. reflexivity.
  - intros json_loads Hloads. unfold prepare_body.
    change (String.eqb "POST" "POST") with true.
    replace (String.eqb misfire_text "") with false by reflexivity.
    simpl. rewrite Hloads. reflexivity.
  - vm_compute. reflexivity.
Qed.

Lemma stream_decision_is_byte_scan_witness :
  prepare_body (fun _ => Raise JSONDecodeError) "POST" misfire_text = Ok misfire_text.
Proof.
  destruct stream_decision_is_byte_scan as [_ [_ [_ [Hraw _]]]].
  apply (Hraw (fun _ => Raise JSONDecodeError)). reflexivity.
Defined.

(* ================================================================= *)
(** ** Dictionaries *)

Lemma dict_lookup_store_same (k : string) (v : json) (d : dict) :
  dict_lookup k (dict_store k v d) = Some v.
Proof.
  induction d as [| [k' v'] d IH]; simpl.
  - rewrite String.eqb_refl. reflexivity.
  - destruct (String.eqb k k') eqn:E; simpl.
    + rewrite String.eqb_refl. reflexivity.
    + rewrite E. exact IH.
Qed.

Lemma dict_lookup_store_other (k k' : string) (v : json) (d : dict) :
  k <> k' -> dict_lookup k (dict_store k' v d) = dict_lookup k d.
Proof.
  intro Hne.
  assert (Hkk : String.eqb k k' = false) by (apply String.eqb_neq; exact Hne).
  induction d as [| [k0 v0] d IH]; simpl.
  - rewrite Hkk. reflexivity.
  - destruct (String.eqb k' k0) eqn:E; simpl.
    + apply String.eqb_eq in E. subst k0. rewrite Hkk. reflexivity.
    + destruct (String.eqb k k0); [reflexivity | exact IH].
Qed.

Lemma dict_has_store_same (k : string) (v : json) (d : dict) :
  dict_has k (dict_store k v d) = true.
Proof.
  unfold dict_has. rewrite dict_lookup_store_same. reflexivity.
Qed.

Lemma dict_lookup_setdefault_other (k k' : string) (v : json) (d : dict) :
  k <> k' -> dict_lookup k (dict_setdefault k' v d) = dict_lookup k d.
Proof.
  intro Hne. unfold dict_setdefault.
  destruct (dict_has k' d); [reflexivity |].
  apply dict_lookup_store_other. exact Hne.
Qed.

Lemma py_eq_str (v : json) (s : string) :
  py_eq v (JStr s) = true <-> v = JStr s.
Proof.
  destruct v; simpl; split; intro H; try discriminate H.
  - apply String.eqb_eq in H. subst. reflexivity.
  - injection H as ->. apply String.eqb_refl.
Qed.

(* ================================================================= *)
(** ** The system-prompt extractor *)

Lemma system_parts_ok (items : list json) :
  forallb system_item_ok items = true ->
  system_parts items = Ok (system_texts items).
Proof.
  induction items as [| item items IH]; simpl; intro H.
  - reflexivity.
  - apply andb_prop in H. destruct H as [Hitem Hitems].
    specialize (IH Hitems).
    destruct item; simpl in *; try exact IH.
    unfold text_ok in Hitem. unfold lookup_or.
    destruct (dict_lookup "text" d) as [t |]; simpl.
    + destruct t; try discriminate Hitem. simpl.
      rewrite IH. simpl. unfold blank.
      destruct (String.eqb (strip s) ""); reflexivity.
    + rewrite IH. reflexivity.
Qed.

Lemma join_nil (sep : string) : join sep [] = "".
Proof. reflexivity. Qed.

(** C9, as the code has it: the extractor returns the empty text for an
    absent or blank-string input, the trimmed string for a non-blank string,
    and the empty text for any shape other than a string or a list; for a
    list none of whose object items has a [text] that is not a string, it
    returns the trimmed texts of the items with non-blank text, joined by a
    blank line, the other items being skipped. *)
Theorem get_user_system_text_cases (original_system : json) :
  (original_system = JNull -> get_user_system_text original_system = Ok "")
  /\ (forall s, original_system = JStr s -> blank s = true ->
        get_user_system_text original_system = Ok "")
  /\ (forall s, original_system = JStr s -> blank s = false ->
        get_user_system_text original_system = Ok (strip s))
  /\ (forall items, original_system = JList items ->
        forallb system_item_ok items = true ->
        get_user_system_text original_system
        = Ok (join (nl ++ nl) (system_texts items)))
  /\ ((forall s, original_system <> JStr s) ->
      (forall items, original_system <> JList items) ->
      get_user_system_text original_system = Ok "").
Proof.
  split; [| split; [| split; [| split]]].
  - intros ->. reflexivity.
  - intros s -> Hblank. simpl. rewrite Hblank. reflexivity.
  - intros s -> Hblank. simpl. rewrite Hblank. reflexivity.
  - intros items -> Hok. simpl.
    rewrite (system_parts_ok items Hok). simpl.
    destruct (system_texts items); reflexivity.
  - intros Hstr Hlist.
    destruct original_system; try reflexivity.
    + exfalso. apply (Hstr s). reflexivity.
    + exfalso. apply (Hlist l). reflexivity.
Qed.

Lemma get_user_system_text_cases_witness :
  get_user_system_text
    (JList [text " Be terse. "; JInt 7; JObj [("type", JStr "image")];
            text "  "; text "Use Rocq."])
  = Ok ("Be terse." ++ nl ++ nl ++ "Use Rocq.").
Proof.
  destruct (get_user_system_text_cases
              (JList [text " Be terse. "; JInt 7; JObj [("type", JStr "image")];
                      text "  "; text "Use Rocq."]))
    as [_ [_ [_ [Hlist _]]]].
  rewrite (Hlist _ eq_refl eq_refl). reflexivity.
Defined.

(** C9, as the claim states it, fails: an item whose [text] is [null] lacks
    usable text, and is not skipped: the extractor raises. *)
Lemma get_user_system_text_null_text :
  get_user_system_text null_text_system = Raise AttributeError.
Proof. reflexivity. Qed.

(* ================================================================= *)
(** ** Injection of the caller's system text *)

Lemma inject_loop_no_user (user_system : string) (msgs : list json) :
  forallb not_user msgs = true ->
  inject_loop user_system msgs = Ok msgs.
Proof.
  induction msgs as [| m msgs IH]; simpl; intro H.
  - reflexivity.
  - apply andb_prop in H. destruct H as [Hm Hmsgs].
    destruct m; try discriminate Hm. simpl in *.
    apply negb_true_iff in Hm. rewrite Hm.
    rewrite (IH Hmsgs). reflexivity.
Qed.

(** The loop leaves the turns before the first user turn and those after it
    as they are. *)
Lemma inject_loop_first_user (user_system : string) (pre post : list json) (md : dict) :
  forallb not_user pre = true ->
  is_user (JObj md) = true ->
  inject_loop user_system (pre ++ JObj md :: post)%list
  = (msg' <- inject_into user_system (JObj md) ;; Ok (pre ++ msg' :: post)%list).
Proof.
  intros Hpre Huser.
  induction pre as [| m pre IH]; simpl.
  - simpl in Huser. rewrite Huser. reflexivity.
  - simpl in Hpre. apply andb_prop in Hpre. destruct Hpre as [Hm Hpre].
    destruct m; try discriminate Hm. simpl in *.
    apply negb_true_iff in Hm. rewrite Hm.
    rewrite (IH Hpre).
    destruct (inject_into user_system (JObj md)); reflexivity.
Qed.

(** C2, as the code has it: with a non-empty system text the scan runs over
    the messages; the first user turn alone is touched, the wrapper going in
    front of its string content, or in front of the text of the first block
    of its non-empty block list; a first user turn whose content is an empty
    block list, or neither a string nor a list, is left as it is and nothing
    is injected anywhere; without a user turn nothing is injected. *)
Theorem injection_first_user_only
    (user_system : string) (d : dict) (msgs : list json) :
  user_system <> "" ->
  dict_lookup "messages" d = Some (JList msgs) ->
  inject_system user_system d
  = (msgs' <- inject_loop user_system msgs ;;
     Ok (dict_store "messages" (JList msgs') d))
  /\ (forallb not_user msgs = true -> inject_loop user_system msgs = Ok msgs)
  /\ (forall pre md post,
        msgs = (pre ++ JObj md :: post)%list ->
        forallb not_user pre = true ->
        is_user (JObj md) = true ->
        (forall s,
            lookup_or "content" (JStr "") md = JStr s ->
            inject_loop user_system msgs
            = Ok (pre ++ JObj (dict_store "content"
                                 (JStr (prefix user_system ++ s)) md) :: post)%list)
        /\ (forall bd blocks t,
              dict_lookup "content" md = Some (JList (JObj bd :: blocks)) ->
              lookup_or "text" (JStr "") bd = JStr t ->
              inject_loop user_system msgs
              = Ok (pre ++ JObj (dict_store "content"
                                   (JList (JObj (dict_store "text"
                                                   (JStr (prefix user_system ++ t)) bd)
                                           :: blocks)) md) :: post)%list)
        /\ (forall c,
              dict_lookup "content" md = Some c ->
              c = JList [] \/ ((forall s, c <> JStr s) /\ (forall l, c <> JList l)) ->
              inject_loop user_system msgs = Ok msgs)).
Proof.
  intros Hus Hmsgs. split; [| split].
  - unfold inject_system, messages_of.
    apply String.eqb_neq in Hus. rewrite Hus, Hmsgs. simpl.
    destruct (inject_loop user_system msgs); reflexivity.
  - apply inject_loop_no_user.
  - intros pre md post -> Hpre Huser.
    rewrite (inject_loop_first_user user_system pre post md Hpre Huser).
    split; [| split].
    + intros s Hs. unfold inject_into. simpl. rewrite Hs. reflexivity.
    + intros bd blocks t Hc Ht. unfold inject_into. simpl.
      unfold lookup_or at 1. rewrite Hc. simpl. rewrite Ht. reflexivity.
    + intros c Hc Hshape. unfold inject_into. simpl.
      unfold lookup_or. rewrite Hc.
      destruct Hshape as [-> | [Hstr Hlist]]; [reflexivity |].
      destruct c; try reflexivity.
      * exfalso. apply (Hstr s). reflexivity.
      * exfalso. apply (Hlist l). reflexivity.
Qed.

Lemma injection_first_user_only_witness :
  inject_loop "Be terse." [assistant (JStr "x"); user (JStr "hi"); user (JStr "again")]
  = Ok [assistant (JStr "x");
        user (JStr ("[System Instructions]" ++ nl ++ "Be terse." ++ nl
                    ++ "[/System Instructions]" ++ nl ++ nl ++ "hi"));
        user (JStr "again")].
Proof.
  destruct (injection_first_user_only "Be terse."
              [("messages", JList [assistant (JStr "x"); user (JStr "hi");
                                   user (JStr "again")])]
              [assistant (JStr "x"); user (JStr "hi"); user (JStr "again")])
    as [_ [_ Hfirst]].
  - discriminate.
  - reflexivity.
  - destruct (Hfirst [assistant (JStr "x")]
                [("role", JStr "user"); ("content", JStr "hi")]
                [user (JStr "again")] eq_refl eq_refl eq_refl) as [Hstr _].
    exact (Hstr "hi" eq_refl).
Defined.

(** C2, as the claim states it, fails: the body has a user turn and the
    non-empty system text [S]; the first user turn has an empty block list,
    and the wrapper is put nowhere. *)
Lemma injection_skips_empty_block_list :
  get_user_system_text (JStr "S") = Ok "S"
  /\ is_user (user (JList [])) = true
  /\ inject_loop "S" [user (JList [])] = Ok [user (JList [])]
  /\ exists out, transform_body empty_content_body = Ok out
                 /\ outbound_messages out = [user (JList [])].
Proof.
  split; [reflexivity |]. split; [reflexivity |]. split; [reflexivity |].
  eexists. split; [vm_compute; reflexivity | reflexivity].
Qed.

(* ================================================================= *)
(** ** The steps of [transform_body] *)

Lemma transform_body_Ok (body out : json) :
  transform_body body = Ok out ->
  exists d0 user_system d2 msgs cleaned annotated,
    body = JObj d0
    /\ get_user_system_text (lookup_or "system" JNull d0) = Ok user_system
    /\ inject_system user_system (dict_store "system" FIXED_SYSTEM d0) = Ok d2
    /\ messages_of d2 = Ok msgs
    /\ clean_messages msgs = Ok cleaned
    /\ annotate_loop cleaned = Ok annotated
    /\ outbound_messages out = annotated.
Proof.
  intro H.
  destruct body as [| | | | | d0]; try discriminate H.
  unfold transform_body in H.
  apply bind_Ok in H. destruct H as [user_system [Hus H]].
  apply bind_Ok in H. destruct H as [d2 [Hd2 H]].
  apply bind_Ok in H. destruct H as [msgs [Hmsgs H]].
  apply bind_Ok in H. destruct H as [cleaned [Hcleaned H]].
  apply bind_Ok in H. destruct H as [annotated [Hann H]].
  injection H as H. subst out.
  exists d0, user_system, d2, msgs, cleaned, annotated.
  repeat (split; [assumption || reflexivity |]).
  unfold outbound_messages.
  rewrite !dict_lookup_setdefault_other by discriminate.
  rewrite dict_lookup_store_same. reflexivity.
Qed.

(* ================================================================= *)
(** ** Caching annotations *)

Lemma annotate_block_has (b : json) (bd : dict) :
  annotate_block b = JObj bd -> dict_has "cache_control" bd = true.
Proof.
  destruct b as [| | | | | d]; simpl; try discriminate.
  destruct (dict_has "cache_control" d) eqn:E; intro H; injection H as <-.
  - exact E.
  - apply dict_has_store_same.
Qed.

(* ================================================================= *)
(** ** The clean-up loop on turns of the data model *)

Lemma any_text_ok (blocks : list json) :
  forallb block_ok blocks = true ->
  any_text blocks = Ok (negb (forallb block_blank blocks)).
Proof.
  induction blocks as [| b blocks IH]; simpl; intro H.
  - reflexivity.
  - apply andb_prop in H. destruct H as [Hb Hblocks].
    specialize (IH Hblocks).
    destruct b as [| | | | | d]; try discriminate Hb.
    simpl in *. unfold text_ok in Hb. unfold lookup_or.
    destruct (dict_lookup "text" d) as [t |].
    + destruct t; try discriminate Hb. simpl. unfold blank.
      destruct (String.eqb (strip s) ""); simpl; [exact IH | reflexivity].
    + simpl. exact IH.
Qed.

Lemma empty_assistant_ok (d : dict) :
  turn_ok (JObj d) = true ->
  empty_assistant (JObj d)
  = Ok (py_eq (lookup_or "role" JNull d) (JStr "assistant")
        && match dict_lookup "content" d with
           | Some (JStr s) => blank s
           | Some (JList blocks) => forallb block_blank blocks
           | _ => false
           end).
Proof.
  intro H. simpl in H. apply andb_prop in H. destruct H as [_ Hc].
  unfold empty_assistant. simpl.
  destruct (py_eq (lookup_or "role" JNull d) (JStr "assistant")); [| reflexivity].
  unfold lookup_or.
  destruct (dict_lookup "content" d) as [c |]; [| discriminate Hc].
  destruct c as [| | | s | blocks |]; try discriminate Hc.
  - reflexivity.
  - destruct blocks as [| b blocks]; [discriminate Hc |].
    simpl in Hc. rewrite (any_text_ok (b :: blocks) Hc).
    simpl. rewrite negb_involutive. reflexivity.
Qed.

Lemma merge_text_ok (m : json) :
  turn_ok m = true -> merge_text m = Ok (JStr (first_text m)).
Proof.
  destruct m as [| | | | | d]; try discriminate.
  simpl. intro H. apply andb_prop in H. destruct H as [_ Hc].
  unfold merge_text, first_text. simpl.
  destruct (dict_lookup "content" d) as [c |]; [| discriminate Hc].
  destruct c as [| | | s | blocks |]; try discriminate Hc.
  - reflexivity.
  - destruct blocks as [| b blocks]; [discriminate Hc |].
    simpl in Hc. apply andb_prop in Hc. destruct Hc as [Hb _].
    destruct b as [| | | | | bd]; try discriminate Hb.
    simpl in *. unfold text_ok in Hb. unfold lookup_or.
    destruct (dict_lookup "text" bd) as [t |]; [| reflexivity].
    destruct t; try discriminate Hb. reflexivity.
Qed.

Lemma role_of_with_content (m c : json) :
  role_of (with_content m c) = role_of m.
Proof.
  destruct m as [| | | | | d]; try reflexivity.
  simpl. apply dict_lookup_store_other. discriminate.
Qed.

Lemma turn_ok_with_content (m c : json) :
  turn_ok m = true -> content_ok c = true -> turn_ok (with_content m c) = true.
Proof.
  destruct m as [| | | | | d]; try discriminate.
  simpl. intros H Hc. apply andb_prop in H. destruct H as [Hrole _].
  unfold dict_has in *.
  rewrite dict_lookup_store_other by discriminate.
  rewrite Hrole, dict_lookup_store_same. exact Hc.
Qed.

Lemma turn_ok_role (m : json) :
  turn_ok m = true -> exists r, role_of m = Some r /\ py_getitem m "role" = Ok r.
Proof.
  destruct m as [| | | | | d]; try discriminate.
  simpl. intro H. apply andb_prop in H. destruct H as [Hrole _].
  unfold dict_has in Hrole.
  destruct (dict_lookup "role" d) as [r |]; [| discriminate Hrole].
  exists r. split; reflexivity.
Qed.

(** One iteration of the loop on turns of the data model, in closed form. *)
Lemma clean_step_ok (prev msg : json) (before : list json) (r1 r2 : json) :
  turn_ok prev = true -> turn_ok msg = true ->
  role_of prev = Some r1 -> role_of msg = Some r2 ->
  exists skip,
    empty_assistant msg = Ok skip
    /\ clean_step (prev :: before) msg
       = Ok (if skip then prev :: before
             else if py_eq r1 r2
                  then with_content prev
                         (JList [text_block (first_text prev ++ nl ++ first_text msg)])
                       :: before
                  else msg :: prev :: before).
Proof.
  intros Hprev Hmsg Hr1 Hr2.
  destruct msg as [| | | | | md]; try discriminate Hmsg.
  destruct prev as [| | | | | pd]; try discriminate Hprev.
  eexists. split; [apply (empty_assistant_ok md Hmsg) |].
  unfold clean_step. rewrite (empty_assistant_ok md Hmsg). simpl bind.
  match goal with |- context [if ?b then _ else _] => destruct b end;
    [reflexivity |].
  simpl in Hr1, Hr2.
  unfold py_getitem. rewrite Hr1, Hr2. simpl bind.
  destruct (py_eq r1 r2); [| reflexivity].
  rewrite (merge_text_ok (JObj pd) Hprev), (merge_text_ok (JObj md) Hmsg).
  reflexivity.
Qed.

Lemma clean_step_first (msg : json) :
  turn_ok msg = true ->
  exists skip, empty_assistant msg = Ok skip
               /\ clean_step [] msg = Ok (if skip then [] else [msg]).
Proof.
  intro Hmsg.
  destruct msg as [| | | | | md]; try discriminate Hmsg.
  eexists. split; [apply (empty_assistant_ok md Hmsg) |].
  unfold clean_step. rewrite (empty_assistant_ok md Hmsg). simpl bind.
  match goal with |- context [if ?b then _ else _] => destruct b end; reflexivity.
Qed.

Lemma clean_step_total (cleaned : list json) (msg : json) :
  forallb turn_ok cleaned = true -> turn_ok msg = true ->
  exists cleaned', clean_step cleaned msg = Ok cleaned'
                   /\ forallb turn_ok cleaned' = true.
Proof.
  intros Hcleaned Hmsg.
  destruct cleaned as [| prev before].
  - destruct (clean_step_first msg Hmsg) as [skip [_ Hstep]].
    rewrite Hstep. eexists. split; [reflexivity |].
    destruct skip; simpl; [reflexivity | rewrite Hmsg; reflexivity].
  - simpl in Hcleaned. apply andb_prop in Hcleaned.
    destruct Hcleaned as [Hprev Hbefore].
    destruct (turn_ok_role prev Hprev) as [r1 [Hr1 _]].
    destruct (turn_ok_role msg Hmsg) as [r2 [Hr2 _]].
    destruct (clean_step_ok prev msg before r1 r2 Hprev Hmsg Hr1 Hr2)
      as [skip [_ Hstep]].
    rewrite Hstep. eexists. split; [reflexivity |].
    destruct skip; [| destruct (py_eq r1 r2)]; simpl.
    + rewrite Hprev, Hbefore. reflexivity.
    + rewrite Hbefore, andb_true_r.
      apply (turn_ok_with_content prev _ Hprev). reflexivity.
    + rewrite Hmsg, Hprev, Hbefore. reflexivity.
Qed.

Lemma clean_loop_total (msgs : list json) :
  forall cleaned,
    forallb turn_ok cleaned = true -> forallb turn_ok msgs = true ->
    exists cleaned', clean_loop cleaned msgs = Ok cleaned'
                     /\ forallb turn_ok cleaned' = true.
Proof.
  induction msgs as [| msg msgs IH]; simpl; intros cleaned Hcleaned Hmsgs.
  - exists cleaned. split; [reflexivity | exact Hcleaned].
  - apply andb_prop in Hmsgs. destruct Hmsgs as [Hmsg Hmsgs].
    destruct (clean_step_total cleaned msg Hcleaned Hmsg) as [c1 [Hstep Hc1]].
    rewrite Hstep. simpl. apply (IH c1 Hc1 Hmsgs).
Qed.

Lemma inject_into_total (user_system : string) (m : json) :
  turn_ok m = true ->
  exists m', inject_into user_system m = Ok m' /\ turn_ok m' = true.
Proof.
  destruct m as [| | | | | d]; try discriminate.
  intro H. pose proof H as Hturn.
  simpl in H. apply andb_prop in H. destruct H as [Hrole Hc].
  unfold inject_into. simpl. unfold lookup_or.
  destruct (dict_lookup "content" d) as [c |]; [| discriminate Hc].
  destruct c as [| | | s | blocks |]; try discriminate Hc.
  - eexists. split; [reflexivity |].
    apply (turn_ok_with_content (JObj d) _ Hturn). reflexivity.
  - destruct blocks as [| b blocks]; [discriminate Hc |].
    simpl in Hc. apply andb_prop in Hc. destruct Hc as [Hb Hblocks].
    destruct b as [| | | | | bd]; try discriminate Hb.
    simpl in Hb. unfold text_ok in Hb. simpl. unfold lookup_or.
    assert (Hnew : forall t,
               content_ok (JList (JObj (dict_store "text" (JStr t) bd) :: blocks))
               = true).
    { intro t. simpl. unfold text_ok.
      rewrite dict_lookup_store_same. exact Hblocks. }
    destruct (dict_lookup "text" bd) as [t |].
    + destruct t; try discriminate Hb. simpl.
      eexists. split; [reflexivity |].
      apply (turn_ok_with_content (JObj d) _ Hturn). apply Hnew.
    + simpl. eexists. split; [reflexivity |].
      apply (turn_ok_with_content (JObj d) _ Hturn). apply Hnew.
Qed.

Lemma inject_loop_total (user_system : string) (msgs : list json) :
  forallb turn_ok msgs = true ->
  exists msgs', inject_loop user_system msgs = Ok msgs'
                /\ forallb turn_ok msgs' = true.
Proof.
  induction msgs as [| m msgs IH]; simpl; intro H.
  - exists []. split; reflexivity.
  - apply andb_prop in H. destruct H as [Hm Hmsgs].
    destruct m as [| | | | | d]; try discriminate Hm.
    simpl py_get. simpl bind.
    destruct (py_eq (lookup_or "role" JNull d) (JStr "user")).
    + destruct (inject_into_total user_system (JObj d) Hm) as [m' [Hinj Hm']].
      rewrite Hinj. simpl. eexists. split; [reflexivity |].
      simpl. rewrite Hm', Hmsgs. reflexivity.
    + destruct (IH Hmsgs) as [msgs' [Hloop Hmsgs']].
      rewrite Hloop. simpl. eexists. split; [reflexivity |].
      simpl. rewrite Hmsgs'. simpl in Hm. rewrite Hm. reflexivity.
Qed.

Lemma inject_system_total (user_system : string) (d : dict) :
  messages_ok d = true ->
  exists d', inject_system user_system d = Ok d' /\ messages_ok d' = true.
Proof.
  intro H. unfold inject_system.
  destruct (String.eqb user_system ""); [exists d; split; [reflexivity | exact H] |].
  unfold messages_ok in H. unfold messages_of.
  destruct (dict_lookup "messages" d) as [v |] eqn:Hv.
  - destruct v as [| | | | msgs |]; try discriminate H.
    simpl. destruct (inject_loop_total user_system msgs H) as [msgs' [Hloop Hok]].
    rewrite Hloop. simpl. eexists. split; [reflexivity |].
    unfold messages_ok. rewrite dict_lookup_store_same. exact Hok.
  - simpl. exists d. split; [reflexivity |].
    unfold messages_ok. rewrite Hv. reflexivity.
Qed.

Lemma annotate_loop_total (msgs : list json) :
  forallb turn_ok msgs = true -> exists annotated, annotate_loop msgs = Ok annotated.
Proof.
  induction msgs as [| m msgs IH]; simpl; intro H.
  - exists []. reflexivity.
  - apply andb_prop in H. destruct H as [Hm Hmsgs].
    destruct (IH Hmsgs) as [rest' Hrest].
    destruct m as [| | | | | d]; try discriminate Hm.
    unfold annotate_msg. simpl py_get. simpl bind.
    destruct (lookup_or "content" (JStr "") d); simpl; rewrite Hrest; simpl;
      eexists; reflexivity.
Qed.

Lemma forallb_rev {A : Type} (f : A -> bool) (l : list A) :
  forallb f (rev l) = forallb f l.
Proof.
  induction l as [| x l IH]; simpl.
  - reflexivity.
  - rewrite forallb_app, IH. simpl. rewrite andb_true_r. apply andb_comm.
Qed.

(** C4, as the code has it: [transform_body] returns a result for every body
    of the data model: an object whose [system], when it is a list, has no
    object item with a [text] that is not a string, and whose [messages] is
    absent or a list of turns, each an object with a role and a content that
    is a string or a non-empty list of block objects whose [text], when
    present, is a string. *)
Theorem transform_body_total (body : json) :
  body_ok body = true -> exists out, transform_body body = Ok out.
Proof.
  destruct body as [| | | | | d0]; try discriminate.
  simpl. intro H. apply andb_prop in H. destruct H as [Hsys Hmsgs].
  unfold transform_body.
  assert (Hus : exists us, get_user_system_text (lookup_or "system" JNull d0) = Ok us).
  { destruct (lookup_or "system" JNull d0) as [| | | s | items |];
      try (eexists; reflexivity).
    - simpl. destruct (blank s); eexists; reflexivity.
    - simpl in *. rewrite (system_parts_ok items Hsys). simpl.
      eexists. reflexivity. }
  destruct Hus as [us Hus]. rewrite Hus. simpl bind.
  assert (Hd1 : messages_ok (dict_store "system" FIXED_SYSTEM d0) = true).
  { unfold messages_ok in *.
    rewrite dict_lookup_store_other by discriminate. exact Hmsgs. }
  destruct (inject_system_total us _ Hd1) as [d2 [Hinj Hd2]].
  rewrite Hinj. simpl bind.
  assert (Hturns : exists msgs, messages_of d2 = Ok msgs
                                /\ forallb turn_ok msgs = true).
  { unfold messages_ok in Hd2. unfold messages_of.
    destruct (dict_lookup "messages" d2) as [v |].
    - destruct v as [| | | | msgs |]; try discriminate Hd2.
      exists msgs. split; [reflexivity | exact Hd2].
    - exists []. split; reflexivity. }
  destruct Hturns as [msgs [Hmsgs2 Hok]]. rewrite Hmsgs2. simpl bind.
  destruct (clean_loop_total msgs [] eq_refl Hok) as [cleaned [Hloop Hcleaned]].
  unfold clean_messages. rewrite Hloop. simpl bind.
  destruct (annotate_loop_total (rev cleaned)) as [annotated Hann].
  { rewrite forallb_rev. exact Hcleaned. }
  rewrite Hann. simpl bind.
  eexists. reflexivity.
Qed.

Lemma transform_body_total_witness :
  exists out, transform_body terse_body = Ok out.
Proof.
  apply (transform_body_total terse_body). reflexivity.
Defined.

(** C4, as the claim states it, fails: each of these bodies parses as a JSON
    object and [transform_body] raises on it: two user turns of which the
    first has an empty block list, a turn without a role after another turn,
    a block whose text is a number. *)
Lemma transform_body_raises :
  transform_body empty_blocks_body = Raise IndexError
  /\ transform_body missing_role_body = Raise KeyError
  /\ transform_body number_text_body = Raise AttributeError.
Proof.
  repeat split; vm_compute; reflexivity.
Qed.

(* ================================================================= *)
(** ** Adjacent roles in the outbound messages *)

Lemma py_getitem_role (m r : json) :
  py_getitem m "role" = Ok r -> role_of m = Some r.
Proof.
  destruct m as [| | | | | d]; try discriminate.
  simpl. destruct (dict_lookup "role" d); intro H; [| discriminate H].
  injection H as ->. reflexivity.
Qed.

Lemma py_setitem_content_role (m c m' : json) :
  py_setitem m "content" c = Ok m' -> role_of m' = role_of m.
Proof.
  destruct m as [| | | | | d]; try discriminate.
  simpl. intro H. injection H as <-. simpl.
  apply dict_lookup_store_other. discriminate.
Qed.

Lemma stack_roles_replace_head (a a' : json) (rest : list json) :
  role_of a' = role_of a ->
  stack_roles_differ (a :: rest) -> stack_roles_differ (a' :: rest).
Proof.
  intros Hrole H. destruct rest as [| b rest]; [exact I |].
  simpl in *. rewrite Hrole. exact H.
Qed.

(** One iteration keeps the roles of neighbours in [cleaned] different,
    whatever the shape of the message. *)
Lemma clean_step_roles (cleaned cleaned' : list json) (msg : json) :
  clean_step cleaned msg = Ok cleaned' ->
  stack_roles_differ cleaned -> stack_roles_differ cleaned'.
Proof.
  unfold clean_step. intros H Hinv.
  apply bind_Ok in H. destruct H as [skip [_ H]].
  destruct skip.
  - injection H as <-. exact Hinv.
  - destruct cleaned as [| prev before].
    + injection H as <-. exact I.
    + apply bind_Ok in H. destruct H as [r1 [Hr1 H]].
      apply bind_Ok in H. destruct H as [r2 [Hr2 H]].
      destruct (py_eq r1 r2) eqn:Heq.
      * apply bind_Ok in H. destruct H as [pt [_ H]].
        apply bind_Ok in H. destruct H as [ct [_ H]].
        apply bind_Ok in H. destruct H as [prev' [Hset H]].
        injection H as <-.
        apply (stack_roles_replace_head prev prev' before); [| exact Hinv].
        apply (py_setitem_content_role prev _ prev' Hset).
      * injection H as <-.
        split; [| exact Hinv].
        exists r1, r2. split; [| split].
        -- apply py_getitem_role. exact Hr1.
        -- apply py_getitem_role. exact Hr2.
        -- exact Heq.
Qed.

Lemma clean_loop_roles (msgs : list json) :
  forall cleaned cleaned',
    clean_loop cleaned msgs = Ok cleaned' ->
    stack_roles_differ cleaned -> stack_roles_differ cleaned'.
Proof.
  induction msgs as [| msg msgs IH]; simpl; intros cleaned cleaned' H Hinv.
  - injection H as <-. exact Hinv.
  - apply bind_Ok in H. destruct H as [c1 [Hstep H]].
    apply (IH c1 cleaned' H).
    apply (clean_step_roles cleaned c1 msg Hstep Hinv).
Qed.

Lemma adjacent_roles_snoc (l : list json) (a b : json) :
  adjacent_roles_differ (l ++ [a])%list ->
  (exists r1 r2, role_of a = Some r1 /\ role_of b = Some r2 /\ py_eq r1 r2 = false) ->
  adjacent_roles_differ ((l ++ [a]) ++ [b])%list.
Proof.
  intros Hl Hab.
  induction l as [| x l IH].
  - simpl. split; [exact Hab | exact I].
  - destruct l as [| y l].
    + simpl in *. destruct Hl as [Hxa _].
      split; [exact Hxa |]. split; [exact Hab | exact I].
    + simpl in Hl. destruct Hl as [Hxy Hrest].
      simpl. split; [exact Hxy |].
      apply IH. exact Hrest.
Qed.

Lemma stack_roles_rev (cleaned : list json) :
  stack_roles_differ cleaned -> adjacent_roles_differ (rev cleaned).
Proof.
  induction cleaned as [| later rest IH]; intro H.
  - exact I.
  - destruct rest as [| earlier rest].
    + exact I.
    + destruct H as [Hpair Hrest].
      specialize (IH Hrest).
      change (rev (later :: earlier :: rest))
        with ((rev rest ++ [earlier]) ++ [later])%list.
      apply adjacent_roles_snoc; [exact IH | exact Hpair].
Qed.

Lemma annotate_msg_role (msg msg' : json) :
  annotate_msg msg = Ok msg' -> role_of msg' = role_of msg.
Proof.
  destruct msg as [| | | | | d]; try discriminate.
  unfold annotate_msg. simpl py_get. simpl bind.
  destruct (lookup_or "content" (JStr "") d); intro H;
    try (injection H as <-; reflexivity);
    apply (py_setitem_content_role (JObj d) _ msg' H).
Qed.

Lemma annotate_loop_roles (msgs : list json) :
  forall annotated,
    annotate_loop msgs = Ok annotated ->
    adjacent_roles_differ msgs -> adjacent_roles_differ annotated.
Proof.
  induction msgs as [| m1 msgs IH]; simpl; intros annotated H Hadj.
  - injection H as <-. exact I.
  - apply bind_Ok in H. destruct H as [m1' [Hm1 H]].
    apply bind_Ok in H. destruct H as [rest' [Hrest H]].
    injection H as <-.
    destruct msgs as [| m2 msgs].
    + simpl in Hrest. injection Hrest as <-. exact I.
    + destruct Hadj as [Hpair Hadj].
      specialize (IH rest' Hrest Hadj).
      simpl in Hrest.
      apply bind_Ok in Hrest. destruct Hrest as [m2' [Hm2 Hrest]].
      apply bind_Ok in Hrest. destruct Hrest as [rest'' [_ Hrest]].
      injection Hrest as <-.
      split; [| exact IH].
      rewrite (annotate_msg_role m1 m1' Hm1), (annotate_msg_role m2 m2' Hm2).
      exact Hpair.
Qed.

(** The first half of C1 holds: when [transform_body] returns, no two
    neighbours among the outbound messages have roles that compare equal. *)
Theorem outbound_adjacent_roles_differ (body out : json) :
  transform_body body = Ok out ->
  adjacent_roles_differ (outbound_messages out).
Proof.
  intro H.
  destruct (transform_body_Ok body out H)
    as [d0 [us [d2 [msgs [cleaned [annotated
         [_ [_ [_ [_ [Hclean [Hann Hout]]]]]]]]]]]].
  rewrite Hout.
  apply (annotate_loop_roles cleaned annotated Hann).
  unfold clean_messages in Hclean.
  apply bind_Ok in Hclean. destruct Hclean as [stack [Hloop Hrev]].
  injection Hrev as <-.
  apply stack_roles_rev.
  apply (clean_loop_roles msgs [] stack Hloop). exact I.
Qed.

Lemma outbound_adjacent_roles_differ_example :
  exists out, transform_body merge_scenario_body = Ok out
              /\ adjacent_roles_differ (outbound_messages out).
Proof.
  destruct (transform_body merge_scenario_body) as [out | e] eqn:H;
    [| vm_compute in H; discriminate H].
  exists out. split; [reflexivity |].
  apply (outbound_adjacent_roles_differ merge_scenario_body out H).
Defined.

(** C1, at an input on which the code breaks the claim: two assistant turns
    in a row, neither of them blank (each has the text block [a1], [a2]
    after a thinking block), come out as one assistant turn whose only block
    has the text of a single newline, which is blank. *)
Theorem merged_assistant_turn_blank :
  spec_empty_assistant (assistant (JList [thinking "t1"; text "a1"])) = false
  /\ spec_empty_assistant (assistant (JList [thinking "t2"; text "a2"])) = false
  /\ (exists out,
        transform_body thinking_body = Ok out
        /\ outbound_messages out
           = [user (JList [text_block "q"]); assistant (JList [text_block nl])])
  /\ blank nl = true.
Proof.
  split; [reflexivity |]. split; [reflexivity |]. split; [| reflexivity].
  eexists. split; [vm_compute; reflexivity | reflexivity].
Qed.

(* ================================================================= *)
(** ** The clean-up loop in closed form *)

Lemma append_assoc (a b c : string) : (a ++ b) ++ c = a ++ (b ++ c).
Proof.
  induction a as [| ch a IH]; simpl; [reflexivity | rewrite IH; reflexivity].
Qed.

Lemma turn_typed_inv (m : json) :
  turn_typed m = true ->
  turn_ok m = true /\ exists r, role_of m = Some (JStr r).
Proof.
  unfold turn_typed. intro H. apply andb_prop in H. destruct H as [Hok Hrole].
  split; [exact Hok |].
  destruct (role_of m) as [r |]; [| discriminate Hrole].
  destruct r; try discriminate Hrole.
  eexists. reflexivity.
Qed.

Lemma turn_typed_with_content (m c : json) :
  turn_typed m = true -> content_ok c = true ->
  turn_typed (with_content m c) = true.
Proof.
  unfold turn_typed. intros H Hc.
  apply andb_prop in H. destruct H as [Hok Hrole].
  rewrite (turn_ok_with_content m c Hok Hc), role_of_with_content.
  exact Hrole.
Qed.

Lemma empty_assistant_typed (m : json) :
  turn_typed m = true -> empty_assistant m = Ok (spec_empty_assistant m).
Proof.
  intro H. destruct (turn_typed_inv m H) as [Hok [r Hr]].
  destruct m as [| | | | | d]; try discriminate Hok.
  rewrite (empty_assistant_ok d Hok).
  unfold spec_empty_assistant, role_is. rewrite Hr.
  simpl in Hr. unfold lookup_or. rewrite Hr. reflexivity.
Qed.

Lemma same_role_typed (a b : json) (ra rb : string) :
  role_of a = Some (JStr ra) -> role_of b = Some (JStr rb) ->
  same_role a b = String.eqb ra rb.
Proof.
  intros Ha Hb. unfold same_role. rewrite Ha, Hb. reflexivity.
Qed.

(** With [cur] the last retained turn, the loop retains what [merge_from]
    retains from the turns that are not empty assistant turns. *)
Lemma clean_loop_merge_from (rest : list json) :
  forall (cur : json) (before : list json),
    turn_typed cur = true ->
    forallb turn_typed rest = true ->
    clean_loop (cur :: before) rest
    = Ok (rev (merge_from cur
                 (filter (fun m => negb (spec_empty_assistant m)) rest))
          ++ before)%list.
Proof.
  induction rest as [| m rest IH]; intros cur before Hcur Hrest.
  - reflexivity.
  - simpl in Hrest. apply andb_prop in Hrest. destruct Hrest as [Hm Hrest].
    destruct (turn_typed_inv cur Hcur) as [Hcur_ok [rc Hrc]].
    destruct (turn_typed_inv m Hm) as [Hm_ok [rm Hrm]].
    destruct (clean_step_ok cur m before (JStr rc) (JStr rm)
                Hcur_ok Hm_ok Hrc Hrm) as [skip [Hskip Hstep]].
    rewrite (empty_assistant_typed m Hm) in Hskip.
    injection Hskip as <-.
    simpl clean_loop. rewrite Hstep. simpl bind.
    simpl filter.
    destruct (spec_empty_assistant m); simpl negb; cbv iota.
    + apply (IH cur before Hcur Hrest).
    + simpl merge_from.
      rewrite (same_role_typed cur m rc rm Hrc Hrm).
      simpl py_eq.
      destruct (String.eqb rc rm).
      * apply IH; [| exact Hrest].
        apply (turn_typed_with_content cur _ Hcur). reflexivity.
      * rewrite (IH m (cur :: before) Hm Hrest).
        simpl rev. rewrite <- app_assoc. reflexivity.
Qed.

Lemma clean_loop_normalize (msgs : list json) :
  forallb turn_typed msgs = true ->
  clean_loop [] msgs = Ok (rev (retained_turns msgs)).
Proof.
  induction msgs as [| m msgs IH]; intro H.
  - reflexivity.
  - simpl in H. apply andb_prop in H. destruct H as [Hm Hmsgs].
    destruct (turn_typed_inv m Hm) as [Hm_ok _].
    destruct (clean_step_first m Hm_ok) as [skip [Hskip Hstep]].
    rewrite (empty_assistant_typed m Hm) in Hskip.
    injection Hskip as <-.
    simpl clean_loop. rewrite Hstep. simpl bind.
    unfold retained_turns. simpl filter.
    destruct (spec_empty_assistant m); simpl negb; cbv iota.
    + apply (IH Hmsgs).
    + rewrite (clean_loop_merge_from msgs m [] Hm Hmsgs).
      rewrite app_nil_r. reflexivity.
Qed.

(* ================================================================= *)
(** ** The fields of the outbound payload *)

Lemma transform_body_out (d0 : dict) (out : json) :
  transform_body (JObj d0) = Ok out ->
  exists user_system d2 msgs cleaned annotated,
    get_user_system_text (lookup_or "system" JNull d0) = Ok user_system
    /\ inject_system user_system (dict_store "system" FIXED_SYSTEM d0) = Ok d2
    /\ messages_of d2 = Ok msgs
    /\ clean_messages msgs = Ok cleaned
    /\ annotate_loop cleaned = Ok annotated
    /\ out = JObj (dict_setdefault "stream" (JBool true)
                    (dict_setdefault "temperature" (JInt 1)
                      (dict_setdefault "max_tokens" (JInt 32000)
                        (dict_store "messages" (JList annotated)
                          (dict_store "messages" (JList cleaned) d2))))).
Proof.
  intro H. unfold transform_body in H.
  apply bind_Ok in H. destruct H as [user_system [Hus H]].
  apply bind_Ok in H. destruct H as [d2 [Hd2 H]].
  apply bind_Ok in H. destruct H as [msgs [Hmsgs H]].
  apply bind_Ok in H. destruct H as [cleaned [Hcleaned H]].
  apply bind_Ok in H. destruct H as [annotated [Hann H]].
  injection H as H.
  exists user_system, d2, msgs, cleaned, annotated.
  repeat (split; [assumption |]). symmetry. exact H.
Qed.

Lemma inject_system_lookup_other (user_system k : string) (d d' : dict) :
  inject_system user_system d = Ok d' ->
  k <> "messages" ->
  dict_lookup k d' = dict_lookup k d.
Proof.
  unfold inject_system. intros H Hk.
  destruct (String.eqb user_system ""); [injection H as <-; reflexivity |].
  apply bind_Ok in H. destruct H as [msgs [_ H]].
  apply bind_Ok in H. destruct H as [msgs' [_ H]].
  injection H as <-.
  destruct (dict_lookup "messages" d) as [v |]; [| reflexivity].
  destruct v; try reflexivity.
  apply dict_lookup_store_other. exact Hk.
Qed.

Lemma dict_lookup_setdefault_same (k : string) (v : json) (d : dict) :
  dict_lookup k (dict_setdefault k v d) = Some (lookup_or k v d).
Proof.
  unfold dict_setdefault, dict_has, lookup_or.
  destruct (dict_lookup k d) as [x |] eqn:E.
  - exact E.
  - apply dict_lookup_store_same.
Qed.

(** A key that is neither [messages] nor one of the three defaulted
    parameters has in the outbound payload the value it has after line 77. *)
Lemma outbound_lookup_other (d0 : dict) (out : json) (k : string) :
  transform_body (JObj d0) = Ok out ->
  k <> "messages" -> k <> "max_tokens" -> k <> "temperature" -> k <> "stream" ->
  exists od, out = JObj od
    /\ dict_lookup k od = dict_lookup k (dict_store "system" FIXED_SYSTEM d0).
Proof.
  intros H Hm Hx Ht Hs.
  destruct (transform_body_out d0 out H)
    as [us [d2 [msgs [cleaned [annotated [_ [Hinj [_ [_ [_ ->]]]]]]]]]].
  eexists. split; [reflexivity |].
  rewrite !dict_lookup_setdefault_other by assumption.
  rewrite !dict_lookup_store_other by assumption.
  apply (inject_system_lookup_other us k _ d2 Hinj Hm).
Qed.

(** Whatever [system] the caller sent, the outbound [system] is the fixed
    preamble. *)
Theorem outbound_system_is_fixed (d0 : dict) (out : json) :
  transform_body (JObj d0) = Ok out ->
  exists od, out = JObj od /\ dict_lookup "system" od = Some FIXED_SYSTEM.
Proof.
  intro H.
  destruct (outbound_lookup_other d0 out "system" H) as [od [-> Hk]];
    try discriminate.
  exists od. split; [reflexivity |].
  rewrite Hk. apply dict_lookup_store_same.
Qed.

Lemma outbound_system_is_fixed_witness :
  exists od, Ok (JObj od) = transform_body terse_body
             /\ dict_lookup "system" od = Some FIXED_SYSTEM.
Proof.
  destruct (transform_body terse_body) as [out | e] eqn:H;
    [| vm_compute in H; discriminate H].
  destruct (outbound_system_is_fixed _ out H) as [od [-> Hsys]].
  exists od. split; [reflexivity | exact Hsys].
Defined.

(** The fields the program does not write go through untouched. *)
Theorem outbound_keeps_unknown_fields (d0 : dict) (out : json) (k : string) :
  transform_body (JObj d0) = Ok out ->
  written_key k = false ->
  exists od, out = JObj od /\ dict_lookup k od = dict_lookup k d0.
Proof.
  intros H Hk. unfold written_key in Hk.
  repeat (apply orb_false_elim in Hk; destruct Hk as [Hk ?]).
  repeat match goal with
         | E : String.eqb _ _ = false |- _ => apply String.eqb_neq in E
         end.
  destruct (outbound_lookup_other d0 out k H) as [od [-> Hod]]; try assumption.
  exists od. split; [reflexivity |].
  rewrite Hod. apply dict_lookup_store_other. assumption.
Qed.

Lemma outbound_keeps_unknown_fields_witness :
  exists od, Ok (JObj od) = transform_body tuned_body
             /\ dict_lookup "model" od = Some (JStr "m").
Proof.
  destruct (transform_body tuned_body) as [out | e] eqn:H;
    [| vm_compute in H; discriminate H].
  destruct (outbound_keeps_unknown_fields _ out "model" H eq_refl) as [od [-> Hk]].
  exists od. split; [reflexivity | exact Hk].
Defined.

(** [max_tokens], [temperature] and [stream] keep the value the caller gave,
    [null] included, and get 32000, 1 and true where the caller gave none. *)
Theorem outbound_defaults (d0 : dict) (out : json) :
  transform_body (JObj d0) = Ok out ->
  exists od, out = JObj od
    /\ dict_lookup "max_tokens" od = Some (lookup_or "max_tokens" (JInt 32000) d0)
    /\ dict_lookup "temperature" od = Some (lookup_or "temperature" (JInt 1) d0)
    /\ dict_lookup "stream" od = Some (lookup_or "stream" (JBool true) d0).
Proof.
  intro H.
  destruct (transform_body_out d0 out H)
    as [us [d2 [msgs [cleaned [annotated [_ [Hinj [_ [_ [_ ->]]]]]]]]]].
  eexists. split; [reflexivity |].
  assert (Hsame : forall k, k <> "messages" -> k <> "system" ->
            dict_lookup k (dict_store "messages" (JList annotated)
                             (dict_store "messages" (JList cleaned) d2))
            = dict_lookup k d0).
  { intros k Hm Hs.
    rewrite !dict_lookup_store_other by assumption.
    rewrite (inject_system_lookup_other us k _ d2 Hinj Hm).
    apply dict_lookup_store_other. exact Hs. }
  split; [| split].
  - rewrite !dict_lookup_setdefault_other by discriminate.
    rewrite dict_lookup_setdefault_same. unfold lookup_or.
    rewrite Hsame by discriminate. reflexivity.
  - rewrite dict_lookup_setdefault_other by discriminate.
    rewrite dict_lookup_setdefault_same. unfold lookup_or.
    rewrite dict_lookup_setdefault_other by discriminate.
    rewrite Hsame by discriminate. reflexivity.
  - rewrite dict_lookup_setdefault_same. unfold lookup_or.
    rewrite !dict_lookup_setdefault_other by discriminate.
    rewrite Hsame by discriminate. reflexivity.
Qed.

Lemma outbound_defaults_witness :
  exists od, Ok (JObj od) = transform_body tuned_body
             /\ dict_lookup "max_tokens" od = Some (JInt 5)
             /\ dict_lookup "temperature" od = Some JNull
             /\ dict_lookup "stream" od = Some (JBool false).
Proof.
  destruct (transform_body tuned_body) as [out | e] eqn:H;
    [| vm_compute in H; discriminate H].
  destruct (outbound_defaults _ out H) as [od [-> Hk]].
  exists od. split; [reflexivity | exact Hk].
Defined.

(** The pipeline is not a no-op on its own output: the system text a second
    pass would extract from an outbound payload is the text of the fixed
    preamble, which is not empty and would be injected into the first user
    turn. *)
Theorem outbound_system_text (d0 : dict) (out : json) :
  transform_body (JObj d0) = Ok out ->
  exists od, out = JObj od
    /\ get_user_system_text (lookup_or "system" JNull od) = Ok fixed_system_text
    /\ fixed_system_text <> "".
Proof.
  intro H.
  destruct (outbound_lookup_other d0 out "system" H) as [od [-> Hsys]];
    try discriminate.
  rewrite dict_lookup_store_same in Hsys.
  exists od. split; [reflexivity |].
  unfold lookup_or. rewrite Hsys.
  split; [reflexivity | discriminate].
Qed.

Lemma outbound_system_text_witness :
  exists od, Ok (JObj od) = transform_body terse_body
             /\ get_user_system_text (lookup_or "system" JNull od)
                = Ok fixed_system_text.
Proof.
  destruct (transform_body terse_body) as [out | e] eqn:H;
    [| vm_compute in H; discriminate H].
  destruct (outbound_system_text _ out H) as [od [-> [Hsys _]]].
  exists od. split; [reflexivity | exact Hsys].
Defined.

(* ================================================================= *)
(** ** The number of turns *)

Lemma inject_loop_length (user_system : string) (msgs : list json) :
  forall msgs', inject_loop user_system msgs = Ok msgs' ->
                List.length msgs' = List.length msgs.
Proof.
  induction msgs as [| m msgs IH]; simpl; intros msgs' H.
  - injection H as <-. reflexivity.
  - apply bind_Ok in H. destruct H as [role [_ H]].
    destruct (py_eq role (JStr "user")).
    + apply bind_Ok in H. destruct H as [m' [_ H]].
      injection H as <-. reflexivity.
    + apply bind_Ok in H. destruct H as [rest' [Hrest H]].
      injection H as <-. simpl. rewrite (IH rest' Hrest). reflexivity.
Qed.

Lemma clean_step_length (cleaned cleaned' : list json) (msg : json) :
  clean_step cleaned msg = Ok cleaned' ->
  List.length cleaned' <= S (List.length cleaned).
Proof.
  unfold clean_step. intro H.
  apply bind_Ok in H. destruct H as [skip [_ H]].
  destruct skip; [injection H as <-; lia |].
  destruct cleaned as [| prev before]; [injection H as <-; simpl; lia |].
  apply bind_Ok in H. destruct H as [r1 [_ H]].
  apply bind_Ok in H. destruct H as [r2 [_ H]].
  destruct (py_eq r1 r2).
  - apply bind_Ok in H. destruct H as [pt [_ H]].
    apply bind_Ok in H. destruct H as [ct [_ H]].
    apply bind_Ok in H. destruct H as [prev' [_ H]].
    injection H as <-. simpl. lia.
  - injection H as <-. simpl. lia.
Qed.

Lemma clean_loop_length (msgs : list json) :
  forall cleaned cleaned',
    clean_loop cleaned msgs = Ok cleaned' ->
    List.length cleaned' <= List.length cleaned + List.length msgs.
Proof.
  induction msgs as [| msg msgs IH]; simpl; intros cleaned cleaned' H.
  - injection H as <-. lia.
  - apply bind_Ok in H. destruct H as [c1 [Hstep H]].
    pose proof (clean_step_length cleaned c1 msg Hstep).
    pose proof (IH c1 cleaned' H). lia.
Qed.

Lemma annotate_loop_length (msgs : list json) :
  forall annotated, annotate_loop msgs = Ok annotated ->
                    List.length annotated = List.length msgs.
Proof.
  induction msgs as [| m msgs IH]; simpl; intros annotated H.
  - injection H as <-. reflexivity.
  - apply bind_Ok in H. destruct H as [m' [_ H]].
    apply bind_Ok in H. destruct H as [rest' [Hrest H]].
    injection H as <-. simpl. rewrite (IH rest' Hrest). reflexivity.
Qed.

Lemma inject_system_messages (user_system : string) (d d' : dict) (msgs : list json) :
  inject_system user_system d = Ok d' ->
  dict_lookup "messages" d = Some (JList msgs) ->
  exists msgs', messages_of d' = Ok msgs'
                /\ List.length msgs' = List.length msgs.
Proof.
  unfold inject_system. intros H Hmsgs.
  destruct (String.eqb user_system "").
  - injection H as <-. exists msgs. unfold messages_of. rewrite Hmsgs.
    split; reflexivity.
  - unfold messages_of in H. rewrite Hmsgs in H. simpl in H.
    apply bind_Ok in H. destruct H as [msgs' [Hloop H]].
    injection H as <-. exists msgs'. unfold messages_of.
    rewrite dict_lookup_store_same. split; [reflexivity |].
    apply (inject_loop_length user_system msgs msgs' Hloop).
Qed.

(** The pipeline drops and merges turns and never adds one: the outbound
    payload has at most as many turns as the inbound list. *)
Theorem outbound_turns_bounded (d0 : dict) (msgs : list json) (out : json) :
  dict_lookup "messages" d0 = Some (JList msgs) ->
  transform_body (JObj d0) = Ok out ->
  List.length (outbound_messages out) <= List.length msgs.
Proof.
  intros Hmsgs H.
  destruct (transform_body_Ok (JObj d0) out H)
    as [d0' [us [d2 [msgs2 [cleaned [annotated
         [Hd0 [_ [Hinj [Hmsgs2 [Hclean [Hann Hout]]]]]]]]]]]].
  injection Hd0 as <-.
  destruct (inject_system_messages us _ d2 msgs Hinj) as [msgs' [Hm' Hlen]].
  { rewrite dict_lookup_store_other by discriminate. exact Hmsgs. }
  rewrite Hmsgs2 in Hm'. injection Hm' as <-.
  unfold clean_messages in Hclean.
  apply bind_Ok in Hclean. destruct Hclean as [stack [Hloop Hrev]].
  injection Hrev as <-.
  rewrite Hout, (annotate_loop_length _ annotated Hann), length_rev.
  pose proof (clean_loop_length msgs2 [] stack Hloop). simpl in *. lia.
Qed.

Lemma outbound_turns_bounded_witness :
  exists out, transform_body merge_scenario_body = Ok out
              /\ List.length (outbound_messages out) <= 4.
Proof.
  destruct (transform_body merge_scenario_body) as [out | e] eqn:H;
    [| vm_compute in H; discriminate H].
  exists out. split; [reflexivity |].
  apply (outbound_turns_bounded [("messages", JList merge_scenario)]
           merge_scenario out eq_refl H).
Defined.

(** A body whose [messages] is absent, or yields no item, goes out with
    [messages] set to the empty list. *)
Theorem outbound_no_messages (d0 : dict) (user_system : string) :
  get_user_system_text (lookup_or "system" JNull d0) = Ok user_system ->
  messages_of d0 = Ok [] ->
  exists od, transform_body (JObj d0) = Ok (JObj od)
             /\ dict_lookup "messages" od = Some (JList []).
Proof.
  intros Hus Hmsgs.
  assert (Hd1 : messages_of (dict_store "system" FIXED_SYSTEM d0) = Ok []).
  { unfold messages_of in *.
    rewrite dict_lookup_store_other by discriminate. exact Hmsgs. }
  assert (Hinj : exists d2,
             inject_system user_system (dict_store "system" FIXED_SYSTEM d0) = Ok d2
             /\ messages_of d2 = Ok []).
  { unfold inject_system.
    destruct (String.eqb user_system "").
    - eexists. split; [reflexivity | exact Hd1].
    - rewrite Hd1. simpl.
      destruct (dict_lookup "messages" (dict_store "system" FIXED_SYSTEM d0))
        as [v |] eqn:Hv.
      + destruct v; try (eexists; split; [reflexivity | exact Hd1]).
        eexists. split; [reflexivity |].
        unfold messages_of. rewrite dict_lookup_store_same. reflexivity.
      + eexists. split; [reflexivity | exact Hd1]. }
  destruct Hinj as [d2 [Hinj Hd2]].
  unfold transform_body. rewrite Hus. simpl bind.
  rewrite Hinj. simpl bind. rewrite Hd2. simpl.
  eexists. split; [reflexivity |].
  rewrite !dict_lookup_setdefault_other by discriminate.
  apply dict_lookup_store_same.
Qed.

Lemma outbound_no_messages_witness :
  exists od, transform_body (JObj [("system", JStr "S")]) = Ok (JObj od)
             /\ dict_lookup "messages" od = Some (JList []).
Proof.
  apply (outbound_no_messages [("system", JStr "S")] "S"); reflexivity.
Defined.

(* ================================================================= *)
(** ** Conversations that need no clean-up *)

Lemma filter_all {A : Type} (f : A -> bool) (l : list A) :
  forallb f l = true -> filter f l = l.
Proof.
  induction l as [| x l IH]; simpl; intro H.
  - reflexivity.
  - apply andb_prop in H. destruct H as [Hx Hl].
    rewrite Hx, (IH Hl). reflexivity.
Qed.

Lemma merge_from_alternating (rest : list json) :
  forall cur, alternating (cur :: rest) = true -> merge_from cur rest = cur :: rest.
Proof.
  induction rest as [| m rest IH]; intros cur H.
  - reflexivity.
  - simpl in H. apply andb_prop in H. destruct H as [Hcm Hrest].
    apply negb_true_iff in Hcm.
    simpl merge_from. rewrite Hcm. rewrite (IH m Hrest). reflexivity.
Qed.

(** A conversation of the data model in which no assistant turn is empty
    and no turn has the role of the turn before it comes out of the loop of
    lines 92-109 as it went in. *)
Theorem clean_messages_alternating (msgs : list json) :
  forallb turn_typed msgs = true ->
  forallb (fun m => negb (spec_empty_assistant m)) msgs = true ->
  alternating msgs = true ->
  clean_messages msgs = Ok msgs.
Proof.
  intros Htyped Hkeep Halt.
  unfold clean_messages. rewrite (clean_loop_normalize msgs Htyped).
  simpl bind. rewrite rev_involutive.
  unfold retained_turns. rewrite (filter_all _ msgs Hkeep).
  destruct msgs as [| m rest]; [reflexivity |].
  simpl merge_adjacent. rewrite (merge_from_alternating rest m Halt).
  reflexivity.
Qed.

Lemma clean_messages_alternating_witness :
  clean_messages conversation = Ok conversation.
Proof.
  apply (clean_messages_alternating conversation); reflexivity.
Defined.

(* ================================================================= *)
(** ** The extracted system text is empty or has visible text *)









(* ================================================================= *)
(** ** Which exceptions [transform_body] raises *)

Lemma raises_only_Ok {A : Type} (a : A) : raises_only (Ok a).
Proof. intros e H. discriminate H. Qed.

Lemma raises_only_Raise {A : Type} (e : exn) :
  runtime_error e = true -> raises_only (@Raise A e).
Proof. intros He e' H. injection H as <-. exact He. Qed.

Lemma raises_only_bind {A B : Type} (m : result A) (k : A -> result B) :
  raises_only m -> (forall a, raises_only (k a)) -> raises_only (bind m k).
Proof.
  intros Hm Hk. destruct m as [a | e]; simpl.
  - apply Hk.
  - intros e' H. injection H as <-. apply (Hm e). reflexivity.
Qed.

Ltac raises_only_step :=
  match goal with
  | |- raises_only (Ok _) => apply raises_only_Ok
  | |- raises_only (Raise _) => apply raises_only_Raise; reflexivity
  | |- raises_only (bind _ _) => apply raises_only_bind; [| intro]
  | |- raises_only (match ?x with _ => _ end) => destruct x
  | H : _ |- _ => apply H
  end.

Lemma py_get_raises (v : json) (k : string) (default : json) :
  raises_only (py_get v k default).
Proof. unfold py_get. repeat raises_only_step. Qed.

Lemma py_getitem_raises (v : json) (k : string) : raises_only (py_getitem v k).
Proof. unfold py_getitem. repeat raises_only_step. Qed.

Lemma py_index0_raises (v : json) : raises_only (py_index0 v).
Proof. unfold py_index0. repeat raises_only_step. Qed.

Lemma py_setitem_raises (v : json) (k : string) (x : json) :
  raises_only (py_setitem v k x).
Proof. unfold py_setitem. repeat raises_only_step. Qed.

Lemma py_strip_raises (v : json) : raises_only (py_strip v).
Proof. unfold py_strip. repeat raises_only_step. Qed.

Lemma py_iter_raises (v : json) : raises_only (py_iter v).
Proof. unfold py_iter. repeat raises_only_step. Qed.

Create HintDb raises discriminated.
#[local] Hint Resolve py_get_raises py_getitem_raises py_index0_raises
  py_setitem_raises py_strip_raises py_iter_raises : raises.

Ltac raises_only_auto :=
  repeat first [ solve [auto with raises] | raises_only_step ].

Lemma system_parts_raises (items : list json) : raises_only (system_parts items).
Proof.
  induction items as [| item items IH]; simpl; [apply raises_only_Ok |].
  destruct item; try exact IH.
  raises_only_auto.
Qed.

Lemma get_user_system_text_raises (v : json) :
  raises_only (get_user_system_text v).
Proof.
  unfold get_user_system_text.
  destruct v; try apply raises_only_Ok.
  - destruct (blank s); apply raises_only_Ok.
  - apply raises_only_bind; [apply system_parts_raises |].
    intro. apply raises_only_Ok.
Qed.

Lemma inject_into_raises (user_system : string) (m : json) :
  raises_only (inject_into user_system m).
Proof. unfold inject_into. raises_only_auto. Qed.

Lemma inject_loop_raises (user_system : string) (msgs : list json) :
  raises_only (inject_loop user_system msgs).
Proof.
  induction msgs as [| m msgs IH]; simpl; [apply raises_only_Ok |].
  apply raises_only_bind; [apply py_get_raises |]. intro role.
  destruct (py_eq role (JStr "user")).
  - apply raises_only_bind; [apply inject_into_raises |].
    intro. apply raises_only_Ok.
  - apply raises_only_bind; [exact IH |]. intro. apply raises_only_Ok.
Qed.

Lemma any_text_raises (blocks : list json) : raises_only (any_text blocks).
Proof.
  induction blocks as [| b blocks IH]; simpl; [apply raises_only_Ok |].
  destruct b; try exact IH.
  apply raises_only_bind; [apply py_get_raises |]. intro t.
  apply raises_only_bind; [apply py_strip_raises |]. intro s.
  destruct (String.eqb s ""); [exact IH | apply raises_only_Ok].
Qed.

Lemma empty_assistant_raises (m : json) : raises_only (empty_assistant m).
Proof.
  unfold empty_assistant.
  apply raises_only_bind; [apply py_get_raises |]. intro role.
  destruct (py_eq role (JStr "assistant")); [| apply raises_only_Ok].
  apply raises_only_bind; [apply py_get_raises |]. intro c.
  destruct c; try apply raises_only_Ok.
  apply raises_only_bind; [apply any_text_raises |].
  intro. apply raises_only_Ok.
Qed.

Lemma merge_text_raises (m : json) : raises_only (merge_text m).
Proof. unfold merge_text. raises_only_auto. Qed.

Lemma clean_step_raises (cleaned : list json) (msg : json) :
  raises_only (clean_step cleaned msg).
Proof.
  unfold clean_step.
  apply raises_only_bind; [apply empty_assistant_raises |]. intro skip.
  destruct skip; [apply raises_only_Ok |].
  destruct cleaned as [| prev before]; [apply raises_only_Ok |].
  apply raises_only_bind; [apply py_getitem_raises |]. intro r1.
  apply raises_only_bind; [apply py_getitem_raises |]. intro r2.
  destruct (py_eq r1 r2); [| apply raises_only_Ok].
  apply raises_only_bind; [apply merge_text_raises |]. intro pt.
  apply raises_only_bind; [apply merge_text_raises |]. intro ct.
  apply raises_only_bind; [apply py_setitem_raises |]. intro.
  apply raises_only_Ok.
Qed.

Lemma clean_loop_raises (msgs : list json) :
  forall cleaned, raises_only (clean_loop cleaned msgs).
Proof.
  induction msgs as [| m msgs IH]; simpl; intro cleaned; [apply raises_only_Ok |].
  apply raises_only_bind; [apply clean_step_raises | exact IH].
Qed.

Lemma annotate_loop_raises (msgs : list json) : raises_only (annotate_loop msgs).
Proof.
  induction msgs as [| m msgs IH]; simpl; [apply raises_only_Ok |].
  apply raises_only_bind.
  - unfold annotate_msg. raises_only_auto.
  - intro. apply raises_only_bind; [exact IH |]. intro. apply raises_only_Ok.
Qed.

Lemma messages_of_raises (d : dict) : raises_only (messages_of d).
Proof.
  unfold messages_of.
  destruct (dict_lookup "messages" d); [apply py_iter_raises | apply raises_only_Ok].
Qed.

Lemma transform_body_runtime_errors (body : json) : raises_only (transform_body body).
Proof.
  destruct body; try (apply raises_only_Raise; reflexivity).
  unfold transform_body.
  apply raises_only_bind; [apply get_user_system_text_raises |]. intro us.
  apply raises_only_bind.
  { unfold inject_system.
    destruct (String.eqb us ""); [apply raises_only_Ok |].
    apply raises_only_bind; [apply messages_of_raises |]. intro.
    apply raises_only_bind; [apply inject_loop_raises |]. intro.
    apply raises_only_Ok. }
  intro d2.
  apply raises_only_bind; [apply messages_of_raises |]. intro msgs.
  apply raises_only_bind.
  { unfold clean_messages.
    apply raises_only_bind; [apply clean_loop_raises |]. intro.
    apply raises_only_Ok. }
  intro cleaned.
  apply raises_only_bind; [apply annotate_loop_raises |]. intro.
  apply raises_only_Ok.
Qed.

(* ================================================================= *)
(** ** The outbound body *)

(** Lines 165-175: a body that is not sent with POST, or is empty, or does
    not parse, goes upstream as it came; a body that parses goes upstream
    transformed and serialized; an exception of [json.loads] other than
    [JSONDecodeError], and every exception of [transform_body], is not
    caught and ends the request. *)
Theorem prepare_body_cases
    (json_loads : string -> result json) (meth body_bytes : string) :
  (meth <> "POST" \/ body_bytes = "" ->
     prepare_body json_loads meth body_bytes = Ok body_bytes)
  /\ (meth = "POST" -> body_bytes <> "" ->
        (json_loads body_bytes = Raise JSONDecodeError ->
           prepare_body json_loads meth body_bytes = Ok body_bytes)
        /\ (forall e, e <> JSONDecodeError ->
              json_loads body_bytes = Raise e ->
              prepare_body json_loads meth body_bytes = Raise e)
        /\ (forall body e,
              json_loads body_bytes = Ok body ->
              transform_body body = Raise e ->
              prepare_body json_loads meth body_bytes = Raise e)
        /\ (forall body out,
              json_loads body_bytes = Ok body ->
              transform_body body = Ok out ->
              prepare_body json_loads meth body_bytes = Ok (dumps out))).
Proof.
  split.
  - intros [Hm | Hb]; unfold prepare_body.
    + apply String.eqb_neq in Hm. rewrite Hm. reflexivity.
    + subst body_bytes. rewrite andb_false_r. reflexivity.
  - intros -> Hb. unfold prepare_body.
    apply String.eqb_neq in Hb. rewrite Hb. simpl.
    split; [| split; [| split]].
    + intros ->. reflexivity.
    + intros e He ->. simpl. destruct e; try reflexivity.
      exfalso. apply He. reflexivity.
    + intros body e -> Ht. simpl. rewrite Ht. simpl.
      pose proof (transform_body_runtime_errors body e Ht) as Hrt.
      destruct e; try reflexivity. discriminate Hrt.
    + intros body out -> Ht. simpl. rewrite Ht. reflexivity.
Qed.

Lemma prepare_body_cases_witness :
  prepare_body (fun _ => Ok empty_blocks_body) "POST" (dumps empty_blocks_body)
  = Raise IndexError.
Proof.
  destruct (prepare_body_cases (fun _ => Ok empty_blocks_body) "POST"
              (dumps empty_blocks_body)) as [_ Hpost].
  destruct (Hpost eq_refl) as [_ [_ [Hraise _]]];
    [vm_compute; discriminate |].
  apply (Hraise empty_blocks_body IndexError); reflexivity.
Defined.

(* ================================================================= *)
(** ** The credential of the outbound request *)

Lemma build_outbound_state
    (json_loads : string -> result json) (req : request) (g : globals) :
  snd (build_outbound json_loads req g) = snd (choose_auth (authorization req) g).
Proof.
  unfold build_outbound, bindM, read, lift, ret.
  destruct (choose_auth (authorization req) g) as [[auth | e] g1]; simpl;
    [| reflexivity].
  destruct (target_url (ANYROUTER_URL g1) (path req)); simpl; [| reflexivity].
  destruct (prepare_body json_loads (method req) (req_body req)); reflexivity.
Qed.

Lemma build_outbound_auth
    (json_loads : string -> result json) (req : request) (g : globals)
    (out : outbound) :
  fst (build_outbound json_loads req g) = Ok out ->
  fst (choose_auth (authorization req) g) = Ok (out_authorization out).
Proof.
  unfold build_outbound, bindM, read, lift, ret.
  destruct (choose_auth (authorization req) g) as [[auth | e] g1]; simpl;
    [| discriminate].
  destruct (target_url (ANYROUTER_URL g1) (path req)); simpl; [| discriminate].
  destruct (prepare_body json_loads (method req) (req_body req)); simpl;
    [| discriminate].
  intro H. injection H as <-. reflexivity.
Qed.

Lemma get_next_key_same_config (g : globals) :
  same_config g (snd (get_next_key g)).
Proof.
  unfold get_next_key, bindM, read, set_key_cycle, ret, lift, same_config.
  destruct (key_cycle g) as [c |]; simpl.
  - destruct (cycle_next c) as [[key c'] |]; simpl; repeat split; reflexivity.
  - repeat split; reflexivity.
Qed.

Lemma choose_auth_same_config (header : option string) (g : globals) :
  same_config g (snd (choose_auth header g)).
Proof.
  unfold choose_auth.
  match goal with |- context [if ?b then _ else _] => destruct b end.
  - unfold bindM, ret.
    pose proof (get_next_key_same_config g) as H.
    destruct (get_next_key g) as [[key | e] g1]; exact H.
  - unfold ret, same_config. simpl. repeat split; reflexivity.
Qed.

(** A caller that sends its own credential gets it forwarded, trimmed, and
    uses up no key of the pool: the globals after the request are the
    globals before it. *)
Theorem caller_credential_forwarded
    (json_loads : string -> result json) (req : request) (g : globals)
    (header : string) :
  authorization req = Some header ->
  strip header <> "" ->
  strip header <> "Bearer" ->
  snd (build_outbound json_loads req g) = g
  /\ forall out, fst (build_outbound json_loads req g) = Ok out ->
                 out_authorization out = strip header.
Proof.
  intros Hreq Hne Hnb.
  assert (Hauth : choose_auth (authorization req) g = (Ok (strip header), g)).
  { rewrite Hreq. unfold choose_auth.
    apply String.eqb_neq in Hne. apply String.eqb_neq in Hnb.
    rewrite Hne, Hnb. reflexivity. }
  split.
  - rewrite build_outbound_state, Hauth. reflexivity.
  - intros out Hout.
    apply build_outbound_auth in Hout. rewrite Hauth in Hout.
    injection Hout as <-. reflexivity.
Qed.

Lemma caller_credential_forwarded_witness :
  snd (build_outbound (fun _ => Ok hello_body) own_key_request running) = running.
Proof.
  apply (caller_credential_forwarded (fun _ => Ok hello_body) own_key_request
           running " Bearer sk-own "); [reflexivity | |]; vm_compute; discriminate.
Defined.

(** A request without a credential of its own (no header, a blank header or
    the bare scheme [Bearer]) takes exactly one key from the rotator and
    sends it after [Bearer ]; when the rotator hands out the empty
    credential, as it does with an empty pool, the header sent is the empty
    string. *)
Theorem rotated_credential_used
    (json_loads : string -> result json) (req : request) (g : globals) :
  (authorization req = None
   \/ exists header, authorization req = Some header
                     /\ (strip header = "" \/ strip header = "Bearer")) ->
  snd (build_outbound json_loads req g) = snd (get_next_key g)
  /\ (forall out key,
        fst (build_outbound json_loads req g) = Ok out ->
        fst (get_next_key g) = Ok key ->
        out_authorization out
        = if py_truth key then "Bearer " ++ py_str key else "")
  /\ (key_cycle g = None ->
      forall out, fst (build_outbound json_loads req g) = Ok out ->
                  out_authorization out = "").
Proof.
  intro Hreq.
  assert (Hauth : choose_auth (authorization req) g
                  = (key <~ get_next_key ;;
                     ret (if py_truth key then "Bearer " ++ py_str key else "")) g).
  { unfold choose_auth.
    destruct Hreq as [-> | [header [-> [Hs | Hs]]]]; try rewrite Hs; reflexivity. }
  split; [| split].
  - rewrite build_outbound_state, Hauth. unfold bindM, ret.
    destruct (get_next_key g) as [[key | e] g1]; reflexivity.
  - intros out key Hout Hkey.
    apply build_outbound_auth in Hout. rewrite Hauth in Hout.
    unfold bindM, ret in Hout.
    destruct (get_next_key g) as [[key' | e] g1]; simpl in *;
      [| discriminate Hkey].
    injection Hkey as ->. injection Hout as <-. reflexivity.
  - intros Hnone out Hout.
    apply build_outbound_auth in Hout. rewrite Hauth in Hout.
    unfold get_next_key in Hout. unfold bindM, ret, read in Hout.
    rewrite Hnone in Hout.
    simpl in Hout. injection Hout as <-. reflexivity.
Qed.

Lemma rotated_credential_used_witness :
  snd (build_outbound (fun _ => Ok hello_body) hello_request running)
  = snd (get_next_key running).
Proof.
  apply (rotated_credential_used (fun _ => Ok hello_body) hello_request running).
  left. reflexivity.
Defined.

(** Serving a request rebinds none of the configuration globals: after
    [proxy], whether it returned or raised, [config], [DEBUG],
    [ANYROUTER_URL], [FIXED_UA], [API_KEYS] and the logger level are what
    they were; only the cursor of the rotator may have moved. *)
Theorem proxy_keeps_config
    (json_loads : string -> result json)
    (upstream : outbound -> upstream_response)
    (req : request) (g : globals) :
  same_config g (snd (proxy json_loads upstream req g)).
Proof.
  assert (Hstate : snd (proxy json_loads upstream req g)
                   = snd (build_outbound json_loads req g)).
  { unfold proxy, bindM, ret.
    destruct (build_outbound json_loads req g) as [[out | e] g1]; reflexivity. }
  rewrite Hstate, build_outbound_state.
  apply choose_auth_same_config.
Qed.

(* ================================================================= *)
(** ** What the caller receives *)

Lemma fold_append_single (s : string) : fold_left String.append [s] "" = s.
Proof. reflexivity. Qed.

(** On every path of the relay the chunks handed to the caller, put end to
    end, are the upstream body, byte for byte; the status handed to the
    caller is 200 on the streaming path, whatever the upstream status, and
    the upstream status on the buffered path. *)
Theorem relay_delivers_upstream_body
    (json_loads : string -> result json)
    (upstream : outbound -> upstream_response)
    (req : request) (g : globals) (resp : response) :
  fst (proxy json_loads upstream req g) = Ok resp ->
  exists out,
    fst (build_outbound json_loads req g) = Ok out
    /\ fold_left String.append (body_chunks resp) "" = up_content (upstream out)
    /\ status_code resp
       = (if is_stream (out_content out) then 200%Z else up_status (upstream out)).
Proof.
  unfold proxy, bindM, ret.
  destruct (build_outbound json_loads req g) as [[out | e] g1]; simpl;
    [| discriminate].
  intro H. injection H as <-.
  exists out. split; [reflexivity |].
  unfold relay, stream.
  destruct (is_stream (out_content out)); simpl.
  - destruct (negb (Z.eqb (up_status (upstream out)) 200)); simpl;
      split; reflexivity.
  - split; reflexivity.
Qed.

Lemma relay_delivers_upstream_body_witness :
  exists resp,
    fst (proxy (fun _ => Ok hello_body) rate_limiting_upstream hello_request running)
    = Ok resp
    /\ fold_left String.append (body_chunks resp) "" = rate_limited.
Proof.
  destruct (fst (proxy (fun _ => Ok hello_body) rate_limiting_upstream
                   hello_request running)) as [resp | e] eqn:H;
    [| vm_compute in H; discriminate H].
  exists resp. split; [reflexivity |].
  destruct (relay_delivers_upstream_body _ _ _ _ resp H) as [out [_ [Hbody _]]].
  rewrite Hbody. reflexivity.
Defined.

(* ================================================================= *)
(** ** A payload that asks for streaming is streamed *)

Lemma starts_with_app_r (p : string) :
  forall s b, starts_with p s = true -> starts_with p (s ++ b) = true.
Proof.
  induction p as [| a p IH]; intros s b H; [destruct s; reflexivity |].
  destruct s as [| c s]; [discriminate H |].
  simpl in *. apply andb_prop in H. destruct H as [Hac Hp].
  rewrite Hac. simpl. apply IH. exact Hp.
Qed.

Lemma starts_with_refl (p : string) : starts_with p p = true.
Proof.
  induction p as [| a p IH]; simpl; [reflexivity |].
  rewrite Ascii.eqb_refl. exact IH.
Qed.

Lemma contains_starts (p s : string) :
  starts_with p s = true -> contains p s = true.
Proof.
  intro H. destruct s; simpl; rewrite H; reflexivity.
Qed.

Lemma contains_app_r (p s b : string) :
  contains p s = true -> contains p (s ++ b) = true.
Proof.
  induction s as [| c s IH]; intro H.
  - simpl in H. rewrite orb_false_r in H.
    apply contains_starts. apply (starts_with_app_r p "" b H).
  - simpl in H. apply orb_prop in H. destruct H as [H | H].
    + apply contains_starts. apply (starts_with_app_r p (String c s) b H).
    + simpl. rewrite (IH H). apply orb_true_r.
Qed.

Lemma contains_app_l (p a s : string) :
  contains p s = true -> contains p (a ++ s) = true.
Proof.
  intro H. induction a as [| c a IH]; [exact H |].
  simpl. rewrite IH. apply orb_true_r.
Qed.

Lemma join_contains (p sep x : string) (parts : list string) :
  In x parts -> contains p x = true -> contains p (join sep parts) = true.
Proof.
  intros Hin Hx. induction parts as [| y ps IH]; [destruct Hin |].
  destruct ps as [| z ps].
  - destruct Hin as [-> | []]. exact Hx.
  - change (join sep (y :: z :: ps)) with (y ++ sep ++ join sep (z :: ps)).
    destruct Hin as [-> | Hin].
    + apply contains_app_r. exact Hx.
    + apply contains_app_l. apply contains_app_l. apply IH. exact Hin.
Qed.

Lemma dict_lookup_In (k : string) (v : json) (d : dict) :
  dict_lookup k d = Some v -> In (k, v) d.
Proof.
  induction d as [| [k' v'] d IH]; simpl; [discriminate |].
  destruct (String.eqb_spec k k') as [-> | _].
  - intro H. injection H as ->. left. reflexivity.
  - intro H. right. apply IH. exact H.
Qed.

(** A field of an object shows in its serialization as the key, a colon and
    a space, and the value. *)
Lemma dumps_field (p k : string) (v : json) (d : dict) :
  dict_lookup k d = Some v ->
  contains p (dumps_str k ++ ": " ++ dumps v) = true ->
  contains p (dumps (JObj d)) = true.
Proof.
  intros Hk Hp.
  change (dumps (JObj d))
    with ("{" ++ join ", "
                   (map (fun kv : string * json =>
                           let (k, x) := kv in dumps_str k ++ ": " ++ dumps x) d)
              ++ "}").
  apply contains_app_l. apply contains_app_r.
  apply (join_contains p ", " (dumps_str k ++ ": " ++ dumps v)); [| exact Hp].
  apply in_map_iff. exists (k, v). split; [reflexivity |].
  apply dict_lookup_In. exact Hk.
Qed.

Lemma outbound_stream_field (d0 : dict) (out : json) :
  transform_body (JObj d0) = Ok out ->
  exists od, out = JObj od
    /\ dict_lookup "stream" od = Some (lookup_or "stream" (JBool true) d0).
Proof.
  intro H.
  destruct (transform_body_out d0 out H)
    as [us [d2 [msgs [cleaned [annotated [_ [Hinj [_ [_ [_ ->]]]]]]]]]].
  eexists. split; [reflexivity |].
  rewrite dict_lookup_setdefault_same. unfold lookup_or.
  rewrite !dict_lookup_setdefault_other by discriminate.
  rewrite !dict_lookup_store_other by discriminate.
  rewrite (inject_system_lookup_other us "stream" _ d2 Hinj) by discriminate.
  rewrite dict_lookup_store_other by discriminate. reflexivity.
Qed.

(** The byte scan has no false negative on a transformed body: when the
    caller leaves [stream] out, or sets it to true, the serialized outbound
    body passes the test of line 177 and the relay streams. *)
Theorem stream_requested_is_streamed
    (upstream : outbound -> upstream_response)
    (d0 : dict) (out : json) (url auth : string) (ua : json) :
  lookup_or "stream" (JBool true) d0 = JBool true ->
  transform_body (JObj d0) = Ok out ->
  is_stream (dumps out) = true
  /\ media_type (relay upstream
                   (mkOutbound url auth "application/json" ua (dumps out)))
     = Some "text/event-stream".
Proof.
  intros Hstream H.
  destruct (outbound_stream_field d0 out H) as [od [-> Hod]].
  rewrite Hstream in Hod.
  assert (Hscan : is_stream (dumps (JObj od)) = true).
  { unfold is_stream.
    rewrite (dumps_field _ "stream" (JBool true) od Hod); [reflexivity |].
    apply contains_starts. apply starts_with_refl. }
  split; [exact Hscan |].
  unfold relay. cbn [out_content]. rewrite Hscan. reflexivity.
Qed.

Lemma stream_requested_is_streamed_witness :
  exists out, transform_body hello_body = Ok out /\ is_stream (dumps out) = true.
Proof.
  destruct (transform_body hello_body) as [out | e] eqn:H;
    [| vm_compute in H; discriminate H].
  exists out. split; [reflexivity |].
  apply (stream_requested_is_streamed rate_limiting_upstream
           [("messages", JList [user (JStr "hi")])] out "" "" JNull eq_refl H).
Defined.

(* ================================================================= *)
(** ** Reload, startup and the rotation that follows *)

(** A reload that succeeds leaves the globals a start of the process on the
    same snapshot would set, whatever they were before; and a snapshot on
    which the start succeeds and whose [api_keys] has a length reloads with
    success. *)
Theorem reload_success_is_startup (cfg : json) (g g' : globals) (n : Z) :
  reload_config (Ok cfg) g = (Ok (ReloadOk n), g')
  <-> (startup cfg = Ok g' /\ py_len (API_KEYS g') = Ok n).
Proof.
  split.
  - intro H. destruct cfg as [| | | | | d]; try discriminate H.
    rewrite reload_config_object in H. cbv zeta in H.
    unfold startup. simpl.
    destruct (make_key_cycle (lookup_or "api_keys" (JList []) d)) as [kc | e];
      [| discriminate H].
    destruct (py_len (lookup_or "api_keys" (JList []) d)) as [m | e] eqn:Hlen;
      [| discriminate H].
    injection H as Hn Hg. subst m g'. simpl. split; [reflexivity | exact Hlen].
  - intros [Hstart Hlen].
    destruct cfg as [| | | | | d]; try discriminate Hstart.
    rewrite reload_config_object. cbv zeta.
    unfold startup in Hstart. simpl in Hstart.
    destruct (make_key_cycle (lookup_or "api_keys" (JList []) d)) as [kc | e];
      [| discriminate Hstart].
    simpl in Hstart. injection Hstart as <-. simpl in Hlen.
    rewrite Hlen. reflexivity.
Qed.

Lemma reload_success_is_startup_witness :
  startup good_snapshot = Ok (snd (reload_config (Ok good_snapshot) running)).
Proof.
  apply (reload_success_is_startup good_snapshot running
           (snd (reload_config (Ok good_snapshot) running)) 1).
  reflexivity.
Defined.

(** After a reload on a snapshot with a non-empty list of keys, the rotation
    starts over at the first key of the new list, wherever the cursor stood
    in the old one. *)
Theorem reload_restarts_rotation (d : dict) (pool : list json) (g : globals) :
  lookup_or "api_keys" (JList []) d = JList pool ->
  pool <> [] ->
  fst (next_keys (List.length pool) (snd (reload_config (Ok (JObj d)) g)))
  = map Ok pool
  /\ forall k, call k (snd (reload_config (Ok (JObj d)) g))
               = Ok (nth (k mod List.length pool) pool JNull).
Proof.
  intros Hkeys Hne.
  rewrite reload_config_object. cbv zeta. rewrite Hkeys.
  destruct pool as [| key keys] eqn:Hpool; [contradiction |].
  rewrite <- Hpool in *.
  assert (Hcycle : make_key_cycle (JList pool) = Ok (Some (new_cycle pool)))
    by (rewrite Hpool; reflexivity).
  rewrite Hcycle. simpl py_len. cbv iota. simpl snd.
  assert (Hlen : 0 < List.length pool) by (rewrite Hpool; simpl; lia).
  split.
  - apply (next_keys_first_pass pool [] 0). reflexivity.
  - intro k.
    apply (call_at pool k 0 (new_cycle pool)); [reflexivity | | exact Hlen].
    apply (pos_first_pass pool 0 Hlen).
Qed.

Lemma reload_restarts_rotation_witness :
  fst (next_keys 1 (snd (reload_config (Ok good_snapshot)
                           (snd (get_next_key running)))))
  = [Ok (JStr "k3")].
Proof.
  apply (reload_restarts_rotation
           [("debug", JBool true); ("anyrouter_url", JStr "http://new");
            ("user_agent", JStr "ua"); ("api_keys", JList [JStr "k3"])]
           [JStr "k3"] (snd (get_next_key running)) eq_refl).
  discriminate.
Defined.

Lemma py_iter_truth (v : json) (items : list json) :
  py_truth v = true -> py_iter v = Ok items -> items <> [].
Proof.
  destruct v as [| | | s | l | d]; simpl; try discriminate.
  - destruct s; [discriminate |]. intros _ H. injection H as <-. discriminate.
  - destruct l; [discriminate |]. intros _ H. injection H as <-. discriminate.
  - destruct d; [discriminate |]. intros _ H. injection H as <-. discriminate.
Qed.

(** Whatever value [api_keys] had when the cycle was built, [get_next_key]
    never raises: a false value (empty list, empty string, [null], 0, ...)
    gives the empty credential at every call, and any other value that can
    be iterated is gone through round robin, item by item -- the
    characters of a string, the keys of an object. *)
Theorem get_next_key_never_raises (v : json) (g : globals) :
  make_key_cycle v = Ok (key_cycle g) ->
  (py_truth v = false -> forall k, call k g = Ok (JStr ""))
  /\ (py_truth v = true ->
      exists items, py_iter v = Ok items /\ items <> []
        /\ forall k, call k g = Ok (nth (k mod List.length items) items JNull)).
Proof.
  unfold make_key_cycle. intro H. split; intro Ht; rewrite Ht in H.
  - injection H as H. intro k. apply call_no_cycle. symmetry. exact H.
  - apply bind_Ok in H. destruct H as [items [Hiter H]].
    injection H as H.
    pose proof (py_iter_truth v items Ht Hiter) as Hne.
    exists items. split; [exact Hiter |]. split; [exact Hne |].
    assert (Hlen : 0 < List.length items)
      by (destruct items; [contradiction | simpl; lia]).
    intro k.
    apply (call_at items k 0 (new_cycle items)); [symmetry; exact H | | exact Hlen].
    apply (pos_first_pass items 0 Hlen).
Qed.

Lemma get_next_key_never_raises_witness :
  exists g, startup string_keys_snapshot = Ok g
            /\ call 0 g = Ok (JStr "a") /\ call 1 g = Ok (JStr "b")
            /\ call 2 g = Ok (JStr "a").
Proof.
  destruct (startup string_keys_snapshot) as [g | e] eqn:Hg;
    [| vm_compute in Hg; discriminate Hg].
  exists g. split; [reflexivity |].
  vm_compute in Hg. injection Hg as <-.
  match goal with
  | |- call 0 ?g0 = _ /\ _ =>
      destruct (get_next_key_never_raises (JStr "ab") g0 eq_refl) as [_ Hrot]
  end.
  destruct (Hrot eq_refl) as [items [Hitems [_ Hcall]]].
  injection Hitems as <-.
  repeat split; rewrite Hcall; reflexivity.
Defined.

(* ================================================================= *)
(** ** The target URL *)

Lemma rstrip_char_snoc (ch : ascii) (s : string) :
  rstrip_char ch (s ++ String ch "") = rstrip_char ch s.
Proof.
  induction s as [| c s IH]; simpl.
  - rewrite Ascii.eqb_refl. reflexivity.
  - rewrite IH. reflexivity.
Qed.

Lemma rstrip_char_decompose (ch : ascii) (s : string) :
  exists r, s = rstrip_char ch s ++ r /\ all_char ch r = true.
Proof.
  induction s as [| c s IH]; simpl.
  - exists "". split; reflexivity.
  - destruct IH as [r [Hs Hr]].
    destruct (rstrip_char ch s) as [| x y] eqn:Hrs.
    + simpl in Hs. subst r.
      destruct (Ascii.eqb c ch) eqn:Hc.
      * exists (String c s). simpl. rewrite Hc, Hr. split; reflexivity.
      * exists s. split; [reflexivity | exact Hr].
    + exists r. simpl. split; [rewrite Hs at 1; reflexivity | exact Hr].
Qed.

Lemma rstrip_char_idempotent (ch : ascii) (s : string) :
  rstrip_char ch (rstrip_char ch s) = rstrip_char ch s.
Proof.
  induction s as [| c s IH]; simpl; [reflexivity |].
  destruct (rstrip_char ch s) as [| x y] eqn:Hrs.
  - destruct (Ascii.eqb c ch) eqn:Hc; simpl; [reflexivity |].
    rewrite Hc. reflexivity.
  - simpl. simpl in IH. rewrite IH. reflexivity.
Qed.

(** Line 163: the trailing slashes of the configured URL do not count: the
    target is the URL without them, one slash, and the path; a configured
    URL that is not a string makes the request raise. *)
Theorem target_url_slashes (p : string) :
  (forall u, target_url (JStr (u ++ "/")) p = target_url (JStr u) p)
  /\ (forall u, exists base slashes,
        u = base ++ slashes
        /\ all_char "/"%char slashes = true
        /\ rstrip_char "/"%char base = base
        /\ target_url (JStr u) p = Ok (base ++ "/" ++ p))
  /\ (forall url, (forall u, url <> JStr u) ->
                  target_url url p = Raise AttributeError).
Proof.
  split; [| split].
  - intro u. unfold target_url.
    rewrite (rstrip_char_snoc "/"%char u). reflexivity.
  - intro u.
    destruct (rstrip_char_decompose "/"%char u) as [r [Hu Hr]].
    exists (rstrip_char "/"%char u), r.
    split; [exact Hu |]. split; [exact Hr |].
    split; [apply rstrip_char_idempotent | reflexivity].
  - intros url Hurl. destruct url; try reflexivity.
    exfalso. apply (Hurl s). reflexivity.
Qed.

Lemma target_url_slashes_witness :
  target_url (JStr "http://up//") "v1/messages" = Ok "http://up/v1/messages".
Proof.
  destruct (target_url_slashes "v1/messages") as [Hslash _].
  exact (eq_trans (Hslash "http://up/") (eq_trans (Hslash "http://up") eq_refl)).
Defined.

(* ================================================================= *)
(** ** The caller's system text reaches the upstream *)

Lemma append_empty_r (s : string) : s ++ "" = s.
Proof.
  induction s as [| c s IH]; simpl; [reflexivity | rewrite IH; reflexivity].
Qed.

Lemma inject_into_user (user_system s : string) :
  inject_into user_system (user (JStr s))
  = Ok (user (JStr (prefix user_system ++ s))).
Proof. reflexivity. Qed.

Lemma content_of_with_content (m c : json) (r : json) :
  role_of m = Some r -> content_of (with_content m c) = Some c.
Proof.
  destruct m as [| | | | | d]; try discriminate.
  intros _. simpl. apply dict_lookup_store_same.
Qed.

(** The first turn the walk retains starts with the text of the turn the walk
    started from, and has its role. *)
Lemma merge_from_head (rest : list json) :
  forall cur, exists cur' tail,
    merge_from cur rest = cur' :: tail
    /\ role_of cur' = role_of cur
    /\ (cur' = cur
        \/ exists t, content_of cur'
                     = Some (JList [text_block (first_text cur ++ t)])).
Proof.
  induction rest as [| m rest IH]; intro cur.
  - exists cur, []. split; [reflexivity |]. split; [reflexivity | left; reflexivity].
  - simpl merge_from. destruct (same_role cur m) eqn:Hsame.
    + assert (Hrole : exists r, role_of cur = Some r).
      { unfold same_role in Hsame.
        destruct (role_of cur) as [r |]; [exists r; reflexivity | discriminate]. }
      destruct Hrole as [r Hr].
      destruct (IH (with_content cur
                      (JList [text_block (first_text cur ++ nl ++ first_text m)])))
        as [cur' [tail [Hm [Hrole Hcontent]]]].
      exists cur', tail. split; [exact Hm |].
      split; [rewrite Hrole; apply role_of_with_content |].
      right. destruct Hcontent as [-> | [t Ht]].
      * exists (nl ++ first_text m).
        apply (content_of_with_content cur _ r Hr).
      * exists (nl ++ first_text m ++ t). rewrite Ht.
        unfold first_text at 1.
        rewrite (content_of_with_content cur _ r Hr). simpl.
        rewrite !append_assoc. reflexivity.
    + exists cur, (merge_from m rest).
      split; [reflexivity |]. split; [reflexivity | left; reflexivity].
Qed.

(** When the conversation opens with a user turn of string content [s] and
    the caller's system text is not empty, the outbound conversation opens
    with a user turn whose single block starts with the wrapper around that
    text, followed by [s]. *)
Theorem system_text_reaches_upstream
    (d0 : dict) (user_system s : string) (rest : list json) (out : json) :
  get_user_system_text (lookup_or "system" JNull d0) = Ok user_system ->
  user_system <> "" ->
  dict_lookup "messages" d0 = Some (JList (user (JStr s) :: rest)) ->
  forallb turn_typed rest = true ->
  transform_body (JObj d0) = Ok out ->
  exists first others t,
    outbound_messages out = first :: others
    /\ role_of first = Some (JStr "user")
    /\ content_of first
       = Some (JList [text_block (prefix user_system ++ s ++ t)]).
Proof.
  intros Hus Hne Hmsgs Hrest H.
  destruct (transform_body_Ok (JObj d0) out H)
    as [d0' [us [d2 [msgs [cleaned [annotated
         [Hd0 [Hus' [Hinj [Hmsgs2 [Hclean [Hann Hout]]]]]]]]]]]].
  injection Hd0 as <-. rewrite Hus in Hus'. injection Hus' as <-.
  (* injection *)
  unfold inject_system in Hinj.
  apply String.eqb_neq in Hne. rewrite Hne in Hinj.
  assert (Hd1 : dict_lookup "messages" (dict_store "system" FIXED_SYSTEM d0)
                = Some (JList (user (JStr s) :: rest))).
  { rewrite dict_lookup_store_other by discriminate. exact Hmsgs. }
  unfold messages_of in Hinj. rewrite Hd1 in Hinj.
  change (py_iter (JList (user (JStr s) :: rest)))
    with (Ok (user (JStr s) :: rest)) in Hinj.
  cbn [bind] in Hinj.
  change (inject_loop user_system (user (JStr s) :: rest))
    with (msg' <- inject_into user_system (user (JStr s)) ;; Ok (msg' :: rest))
    in Hinj.
  rewrite inject_into_user in Hinj. cbn [bind] in Hinj.
  injection Hinj as <-.
  unfold messages_of in Hmsgs2. rewrite dict_lookup_store_same in Hmsgs2.
  injection Hmsgs2 as <-.
  (* clean-up *)
  pose (u := user (JStr (prefix user_system ++ s))).
  change (clean_messages (u :: rest) = Ok cleaned) in Hclean.
  assert (Htyped : forallb turn_typed (u :: rest) = true).
  { simpl. rewrite Hrest. reflexivity. }
  unfold clean_messages in Hclean.
  rewrite (clean_loop_normalize (u :: rest) Htyped) in Hclean.
  simpl bind in Hclean. rewrite rev_involutive in Hclean.
  injection Hclean as <-.
  unfold retained_turns in Hann.
  change (filter (fun m => negb (spec_empty_assistant m)) (u :: rest))
    with (u :: filter (fun m => negb (spec_empty_assistant m)) rest) in Hann.
  simpl merge_adjacent in Hann.
  destruct (merge_from_head (filter (fun m => negb (spec_empty_assistant m)) rest) u)
    as [cur' [tail [Hmerge [Hrole Hcontent]]]].
  rewrite Hmerge in Hann.
  (* annotation *)
  simpl annotate_loop in Hann.
  apply bind_Ok in Hann. destruct Hann as [first [Hfirst Hann]].
  apply bind_Ok in Hann. destruct Hann as [others [_ Hann]].
  injection Hann as <-.
  rewrite Hout.
  destruct Hcontent as [-> | [t Ht]].
  - exists (user (JList [text_block (prefix user_system ++ s)])), others, "".
    injection Hfirst as <-.
    split; [reflexivity |]. split; [reflexivity |].
    rewrite (append_empty_r s). reflexivity.
  - exists first, others, t.
    split; [reflexivity |].
    split; [rewrite (annotate_msg_role cur' first Hfirst); exact Hrole |].
    destruct cur' as [| | | | | cd]; try discriminate Ht.
    simpl in Ht. unfold annotate_msg in Hfirst. simpl in Hfirst.
    unfold lookup_or in Hfirst. rewrite Ht in Hfirst.
    simpl in Hfirst. injection Hfirst as <-.
    simpl. rewrite dict_lookup_store_same.
    unfold first_text. simpl. rewrite append_assoc. reflexivity.
Qed.

Lemma system_text_reaches_upstream_witness :
  exists first others t,
    match transform_body terse_body with
    | Ok out => outbound_messages out
    | Raise _ => []
    end = first :: others
    /\ role_of first = Some (JStr "user")
    /\ content_of first
       = Some (JList [text_block (prefix "Be terse." ++ "hi" ++ t)]).
Proof.
  destruct (transform_body terse_body) as [out | e] eqn:H;
    [| vm_compute in H; discriminate H].
  apply (system_text_reaches_upstream
           [("system", JStr "Be terse."); ("messages", JList [user (JStr "hi")])]
           "Be terse." "hi" [] out); try reflexivity.
  - discriminate.
  - exact H.
Defined.

(* ================================================================= *)
(** ** Annotating twice *)

Lemma dict_store_twice (k : string) (v : json) (d : dict) :
  dict_store k v (dict_store k v d) = dict_store k v d.
Proof.
  induction d as [| [k' v'] d IH]; simpl.
  - rewrite String.eqb_refl. reflexivity.
  - destruct (String.eqb k k') eqn:E; simpl.
    + rewrite String.eqb_refl. reflexivity.
    + rewrite E, IH. reflexivity.
Qed.

Lemma annotate_block_twice (b : json) :
  annotate_block (annotate_block b) = annotate_block b.
Proof.
  destruct b as [| | | | | d]; try reflexivity.
  simpl. destruct (dict_has "cache_control" d) eqn:E; simpl.
  - rewrite E. reflexivity.
  - rewrite dict_has_store_same. reflexivity.
Qed.

Lemma annotate_msg_twice (m m' : json) :
  annotate_msg m = Ok m' -> annotate_msg m' = Ok m'.
Proof.
  destruct m as [| | | | | d]; try discriminate.
  unfold annotate_msg at 1. simpl py_get. cbn [bind].
  destruct (lookup_or "content" (JStr "") d) as [| | | s | blocks |] eqn:Hc;
    simpl; intro H; injection H as <-;
    unfold annotate_msg; simpl py_get; cbn [bind];
    try (rewrite Hc; reflexivity).
  - unfold lookup_or. rewrite dict_lookup_store_same.
    cbn [py_setitem map].
    change (annotate_block (text_block s)) with (text_block s).
    rewrite dict_store_twice. reflexivity.
  - unfold lookup_or. rewrite dict_lookup_store_same.
    cbn [py_setitem].
    rewrite map_map, (map_ext _ _ annotate_block_twice).
    rewrite dict_store_twice. reflexivity.
Qed.

(** The annotation step is idempotent: run on its own output it changes
    nothing. *)
Theorem annotate_loop_twice (msgs annotated : list json) :
  annotate_loop msgs = Ok annotated -> annotate_loop annotated = Ok annotated.
Proof.
  revert annotated.
  induction msgs as [| m msgs IH]; simpl; intros annotated H.
  - injection H as <-. reflexivity.
  - apply bind_Ok in H. destruct H as [m' [Hm H]].
    apply bind_Ok in H. destruct H as [rest' [Hrest H]].
    injection H as <-. simpl.
    rewrite (annotate_msg_twice m m' Hm). simpl.
    rewrite (IH rest' Hrest). reflexivity.
Qed.

Lemma annotate_loop_twice_witness :
  annotate_loop [user (JList [text_block "hi"]);
                 assistant (JList [JObj [("type", JStr "text"); ("text", JStr "yo");
                                         ("cache_control", ephemeral)]])]
  = Ok [user (JList [text_block "hi"]);
        assistant (JList [JObj [("type", JStr "text"); ("text", JStr "yo");
                                ("cache_control", ephemeral)]])].
Proof.
  apply (annotate_loop_twice [user (JStr "hi"); assistant (JList [text "yo"])]).
  reflexivity.
Defined.

(* ================================================================= *)
(** ** The rotation after a reload that failed *)

Lemma get_next_key_by_cycle (g1 g2 : globals) :
  key_cycle g1 = key_cycle g2 ->
  fst (get_next_key g1) = fst (get_next_key g2)
  /\ key_cycle (snd (get_next_key g1)) = key_cycle (snd (get_next_key g2)).
Proof.
  intro H. unfold get_next_key, bindM, read, set_key_cycle, ret, lift.
  rewrite H. destruct (key_cycle g2) as [c |] eqn:E; simpl.
  - destruct (cycle_next c) as [[key c'] |]; simpl; [split; reflexivity |].
    split; [reflexivity | congruence].
  - split; [reflexivity | congruence].
Qed.

Lemma call_by_cycle (k : nat) :
  forall g1 g2, key_cycle g1 = key_cycle g2 -> call k g1 = call k g2.
Proof.
  induction k as [| k IH]; intros g1 g2 H.
  - unfold call. simpl. apply (get_next_key_by_cycle g1 g2 H).
  - rewrite !call_succ. apply IH. apply (get_next_key_by_cycle g1 g2 H).
Qed.

(** When the snapshot parses to an object and the reload fails all the
    same, the rotator is left in one of two states: with an [api_keys] that
    counts as true (a number, say) the old cycle goes on handing out the old
    keys; with one that counts as false and has no length ([null], 0,
    [false]) the rotator is switched off and hands out the empty credential
    from then on. *)
Theorem failed_reload_rotation (d : dict) (g g' : globals) (e : exn) :
  reload_config (Ok (JObj d)) g = (Ok (ReloadError e), g') ->
  (py_truth (lookup_or "api_keys" (JList []) d) = true ->
     forall k, call k g' = call k g)
  /\ (py_truth (lookup_or "api_keys" (JList []) d) = false ->
        forall k, call k g' = Ok (JStr "")).
Proof.
  intro H. rewrite reload_config_object in H. cbv zeta in H.
  unfold make_key_cycle in H.
  destruct (py_truth (lookup_or "api_keys" (JList []) d)) eqn:Ht.
  - split; [| discriminate]. intros _ k.
    destruct (lookup_or "api_keys" (JList []) d) as [| | | s | l | kd];
      simpl in H; try discriminate H;
      injection H as _ <-; apply call_by_cycle; reflexivity.
  - split; [discriminate |]. intros _ k.
    destruct (py_len (lookup_or "api_keys" (JList []) d)); [discriminate H |].
    injection H as _ <-. apply call_no_cycle. reflexivity.
Qed.

Lemma failed_reload_rotation_witness :
  fst (reload_config (Ok null_keys_snapshot) running) = Ok (ReloadError TypeError)
  /\ call 0 (snd (reload_config (Ok null_keys_snapshot) running)) = Ok (JStr "").
Proof.
  split; [reflexivity |].
  destruct (failed_reload_rotation [("api_keys", JNull)] running
              (snd (reload_config (Ok null_keys_snapshot) running)) TypeError
              eq_refl) as [_ Hoff].
  apply (Hoff eq_refl 0).
Defined.

(* ================================================================= *)
(** ** Caching annotations against step 4 of the specification *)

Lemma dict_store_absent (k : string) (v : json) (d : dict) :
  dict_lookup k d = None -> dict_store k v d = (d ++ [(k, v)])%list.
Proof.
  induction d as [| [k' v'] d IH]; simpl; intro H.
  - reflexivity.
  - destruct (String.eqb k k'); [discriminate H |].
    rewrite (IH H). reflexivity.
Qed.

Lemma annotate_block_spec (b : json) : annotate_block b = spec_annotate_block b.
Proof.
  destruct b as [| | | | | d]; try reflexivity.
  simpl. unfold dict_has.
  destruct (dict_lookup "cache_control" d) as [x |] eqn:E; [reflexivity |].
  rewrite (dict_store_absent _ _ d E). reflexivity.
Qed.

Lemma annotate_msg_spec (m m' : json) :
  annotate_msg m = Ok m' -> m' = spec_annotate_turn m.
Proof.
  destruct m as [| | | | | d]; try discriminate.
  unfold annotate_msg. simpl py_get. cbn [bind]. unfold lookup_or.
  simpl spec_annotate_turn.
  destruct (dict_lookup "content" d) as [c |] eqn:Hc.
  - destruct c as [| | | s | blocks |]; simpl; intro H; injection H as <-;
      try reflexivity.
    rewrite (map_ext _ _ annotate_block_spec). reflexivity.
  - simpl. intro H. injection H as <-.
    rewrite (dict_store_absent _ _ d Hc). reflexivity.
Qed.

Lemma annotate_loop_spec (msgs : list json) :
  forall annotated, annotate_loop msgs = Ok annotated ->
                    annotated = map spec_annotate_turn msgs.
Proof.
  induction msgs as [| m msgs IH]; simpl; intros annotated H.
  - injection H as <-. reflexivity.
  - apply bind_Ok in H. destruct H as [m' [Hm H]].
    apply bind_Ok in H. destruct H as [rest' [Hrest H]].
    injection H as <-.
    rewrite (annotate_msg_spec m m' Hm), (IH rest' Hrest). reflexivity.
Qed.

Lemma transform_body_normalized (body out : json) :
  transform_body body = Ok out ->
  exists cleaned, normalized_messages body = Ok cleaned
                  /\ annotate_loop cleaned = Ok (outbound_messages out).
Proof.
  intro H.
  destruct (transform_body_Ok body out H)
    as [d0 [us [d2 [msgs [cleaned [annotated
         [-> [Hus [Hinj [Hmsgs [Hclean [Hann Hout]]]]]]]]]]]].
  exists cleaned. split.
  - unfold normalized_messages. rewrite Hus. cbn [bind].
    rewrite Hinj. cbn [bind]. rewrite Hmsgs. cbn [bind]. exact Hclean.
  - rewrite Hout. exact Hann.
Qed.

(** On a body of the data model steps 1 to 3 return, and return turns of
    the data model. *)
Lemma normalized_messages_ok (body : json) :
  body_ok body = true ->
  exists cleaned, normalized_messages body = Ok cleaned
                  /\ forallb turn_ok cleaned = true.
Proof.
  destruct body as [| | | | | d0]; try discriminate.
  simpl. intro H. apply andb_prop in H. destruct H as [Hsys Hmsgs].
  assert (Hus : exists us, get_user_system_text (lookup_or "system" JNull d0) = Ok us).
  { destruct (lookup_or "system" JNull d0) as [| | | s | items |];
      try (eexists; reflexivity).
    - simpl. destruct (blank s); eexists; reflexivity.
    - simpl in *. rewrite (system_parts_ok items Hsys). simpl.
      eexists. reflexivity. }
  destruct Hus as [us Hus]. rewrite Hus. cbn [bind].
  assert (Hd1 : messages_ok (dict_store "system" FIXED_SYSTEM d0) = true).
  { unfold messages_ok in *.
    rewrite dict_lookup_store_other by discriminate. exact Hmsgs. }
  destruct (inject_system_total us _ Hd1) as [d2 [Hinj Hd2]].
  rewrite Hinj. cbn [bind].
  assert (Hturns : exists msgs, messages_of d2 = Ok msgs
                                /\ forallb turn_ok msgs = true).
  { unfold messages_ok in Hd2. unfold messages_of.
    destruct (dict_lookup "messages" d2) as [v |].
    - destruct v as [| | | | msgs |]; try discriminate Hd2.
      exists msgs. split; [reflexivity | exact Hd2].
    - exists []. split; reflexivity. }
  destruct Hturns as [msgs [Hmsgs2 Hok]]. rewrite Hmsgs2. cbn [bind].
  destruct (clean_loop_total msgs [] eq_refl Hok) as [stack [Hloop Hstack]].
  unfold clean_messages. rewrite Hloop. cbn [bind].
  eexists. split; [reflexivity |].
  rewrite forallb_rev. exact Hstack.
Qed.

Lemma transform_body_from_normalized (body : json) (cleaned annotated : list json) :
  normalized_messages body = Ok cleaned ->
  annotate_loop cleaned = Ok annotated ->
  exists out, transform_body body = Ok out /\ outbound_messages out = annotated.
Proof.
  destruct body as [| | | | | d0]; try discriminate.
  unfold normalized_messages, transform_body. intros H Hann.
  apply bind_Ok in H. destruct H as [us [Hus H]].
  apply bind_Ok in H. destruct H as [d2 [Hinj H]].
  apply bind_Ok in H. destruct H as [msgs [Hmsgs Hclean]].
  rewrite Hus. cbn [bind]. rewrite Hinj. cbn [bind].
  rewrite Hmsgs. cbn [bind]. rewrite Hclean. cbn [bind].
  rewrite Hann. cbn [bind].
  eexists. split; [reflexivity |].
  unfold outbound_messages.
  rewrite !dict_lookup_setdefault_other by discriminate.
  rewrite dict_lookup_store_same. reflexivity.
Qed.

Lemma spec_annotate_block_ok (b : json) :
  block_ok b = true -> has_annotation (spec_annotate_block b) = true.
Proof.
  destruct b as [| | | | | bd]; try discriminate. intros _.
  rewrite <- annotate_block_spec. simpl.
  destruct (dict_has "cache_control" bd) eqn:E; simpl.
  - exact E.
  - apply dict_has_store_same.
Qed.

Lemma spec_annotate_blocks_ok (blocks : list json) :
  forallb block_ok blocks = true ->
  forallb has_annotation (map spec_annotate_block blocks) = true.
Proof.
  induction blocks as [| b blocks IH]; simpl; intro H; [reflexivity |].
  apply andb_prop in H. destruct H as [Hb Hblocks].
  rewrite (spec_annotate_block_ok b Hb). simpl. apply IH. exact Hblocks.
Qed.

Lemma spec_annotate_turn_ok (m : json) :
  turn_ok m = true -> fully_annotated (spec_annotate_turn m) = true.
Proof.
  destruct m as [| | | | | d]; try discriminate.
  simpl. intro H. apply andb_prop in H. destruct H as [_ Hc].
  destruct (dict_lookup "content" d) as [c |]; [| discriminate Hc].
  destruct c as [| | | s | blocks |]; try discriminate Hc.
  - unfold fully_annotated. simpl. rewrite dict_lookup_store_same. reflexivity.
  - destruct blocks as [| b blocks]; [discriminate Hc |].
    unfold fully_annotated. simpl content_of.
    rewrite dict_lookup_store_same.
    apply (spec_annotate_blocks_ok (b :: blocks)). exact Hc.
Qed.

Lemma spec_annotate_turns_ok (msgs : list json) :
  forallb turn_ok msgs = true ->
  forallb fully_annotated (map spec_annotate_turn msgs) = true.
Proof.
  induction msgs as [| m msgs IH]; simpl; intro H; [reflexivity |].
  apply andb_prop in H. destruct H as [Hm Hmsgs].
  rewrite (spec_annotate_turn_ok m Hm). simpl. apply IH. exact Hmsgs.
Qed.

(** C3, as the code has it: whenever [transform_body] returns, the outbound
    turns are the turns left by steps 1 to 3 with step 4 applied to each: a
    plain-string content lifted into one annotated block, a block object
    without [cache_control] given the annotation beside its own fields, a
    block that has the key left untouched, and anything that is not a block
    object, or a content that is neither a string nor a list, passed
    through; on every body of the data model [transform_body] returns and
    every outbound turn has a non-empty list of block objects that all
    carry [cache_control]. *)
Theorem outbound_annotation (body : json) :
  (forall out, transform_body body = Ok out ->
     exists cleaned,
       normalized_messages body = Ok cleaned
       /\ outbound_messages out = map spec_annotate_turn cleaned)
  /\ (body_ok body = true ->
      exists out, transform_body body = Ok out
        /\ forallb fully_annotated (outbound_messages out) = true).
Proof.
  split.
  - intros out H.
    destruct (transform_body_normalized body out H) as [cleaned [Hnorm Hann]].
    exists cleaned. split; [exact Hnorm |].
    apply (annotate_loop_spec cleaned _ Hann).
  - intro Hok.
    destruct (normalized_messages_ok body Hok) as [cleaned [Hnorm Hturns]].
    destruct (annotate_loop_total cleaned Hturns) as [annotated Hann].
    destruct (transform_body_from_normalized body cleaned annotated Hnorm Hann)
      as [out [Hout Hmsgs]].
    exists out. split; [exact Hout |].
    rewrite Hmsgs, (annotate_loop_spec cleaned annotated Hann).
    apply (spec_annotate_turns_ok cleaned Hturns).
Qed.

Lemma outbound_annotation_witness :
  exists out,
    transform_body annotated_body = Ok out
    /\ forallb fully_annotated (outbound_messages out) = true
    /\ outbound_messages out
       = [user (JList [JObj [("type", JStr "text"); ("text", JStr "x");
                             ("cache_control", JObj [("type", JStr "persistent")])];
                       JObj [("type", JStr "text"); ("text", JStr "y");
                             ("cache_control", ephemeral)]])].
Proof.
  destruct (outbound_annotation annotated_body) as [Hspec Hmodel].
  destruct (Hmodel eq_refl) as [out [Hout Hall]].
  exists out. split; [exact Hout |]. split; [exact Hall |].
  destruct (Hspec out Hout) as [cleaned [Hnorm ->]].
  vm_compute in Hnorm. injection Hnorm as <-. reflexivity.
Defined.

(** C3, as the claim states it, fails: a block list holding a string comes
    out with that string, which carries no annotation, and a content that
    is one block object outside a list comes out as it went in, without
    [cache_control]. *)
Lemma annotation_skips_non_objects :
  (exists out, transform_body string_block_body = Ok out
               /\ outbound_messages out = [user (JList [JStr "hi"])])
  /\ (exists out, transform_body object_content_body = Ok out
                  /\ outbound_messages out = [user (text "hi")]
                  /\ dict_lookup "cache_control"
                       [("type", JStr "text"); ("text", JStr "hi")] = None).
Proof.
  split; eexists; (split; [vm_compute; reflexivity |]).
  - reflexivity.
  - split; reflexivity.
Qed.

(* ================================================================= *)
(** ** The merge on turns of several blocks *)

(** C8, at an input on which the code breaks the claim: the first of two
    user turns in a row has the text blocks [a] and [b], the second the
    string [c]; the merge of lines 102-106 reads block [0] alone and the
    merged turn holds [a], a newline and [c]: the text [b] of the first
    turn is in no outbound turn. *)
Theorem merge_drops_later_blocks :
  forallb turn_typed [user (JList [text "a"; text "b"]); user (JStr "c")] = true
  /\ (exists out,
        transform_body two_block_body = Ok out
        /\ outbound_messages out = [user (JList [text_block ("a" ++ nl ++ "c")])])
  /\ contains "b" ("a" ++ nl ++ "c") = false.
Proof.
  split; [reflexivity |]. split; [| reflexivity].
  eexists. split; [vm_compute; reflexivity | reflexivity].
Qed.
